(** * wiki.py: random Wikipedia articles written to numbered text files

    A shallow embedding of [src/wiki.py].  The two procedures of the script,
    [get_random_wikipedia_article] and [create_wiki_files], are effectful:
    they call the [wikipedia] package, the random number generator, the file
    system and the console, and they use exceptions for control flow.  The
    embedding threads an environment (the state of the outside world and the
    transcript of every interaction with it) through a small state and
    exception monad; the [while] loop of the driver takes fuel, one unit per
    iteration. *)

From Stdlib Require Import String Ascii Bool ZArith NArith Lia List DecimalN.
From Stdlib Require Finite.
Import ListNotations.

Set Implicit Arguments.
Local Open Scope char_scope.
Local Open Scope string_scope.
Local Open Scope list_scope.
Local Open Scope Z_scope.

(** ** Python values *)

(** A Python [str] is a sequence of Unicode code points. *)
Definition codepoint := N.
Definition pystr := list codepoint.

(** ASCII literals of the source, as code points. *)
Definition chr (c : ascii) : codepoint := N_of_ascii c.

Definition py (s : string) : pystr :=
  List.map chr (list_ascii_of_string s).

(** The exceptions that the script can meet.  [PageError] and
    [DisambiguationError] are those of [wikipedia.exceptions]; [IOError] is
    Python 3's [OSError]; [IndexError] is raised by list indexing;
    [OtherException] stands for every other subclass of [Exception]
    (network failure, [UnicodeEncodeError], ...).  [KeyboardInterrupt] and
    [SystemExit] derive from [BaseException] only. *)
Inductive exn : Type :=
| PageError
| DisambiguationError (options : list pystr)
| IOError (msg : pystr)
| IndexError
| OtherException (msg : pystr)
| KeyboardInterrupt
| SystemExit.

(** [isinstance(e, Exception)]: what [except Exception] catches. *)
Definition is_Exception (e : exn) : bool :=
  match e with
  | KeyboardInterrupt | SystemExit => false
  | _ => true
  end.

(** What a call of the outside world answers. *)
Inductive answer (A : Type) : Type :=
| Returns (a : A)
| Raises (e : exn).
Arguments Raises {A} e.

(** The only attribute of a [WikipediaPage] that the script reads. *)
Record WikipediaPage : Type := { title : pystr }.

(** Each [print] of the script, with the values it interpolates. *)
Inductive message : Type :=
| MsgPageNotFound
| MsgDisambiguation (option0 : pystr)
| MsgErrorOccurred (e : exn)
| MsgStarting (num_files : Z)
| MsgFileCreated (files_created num_files : Z) (topic : pystr)
| MsgErrorCreatingFile (file_name : pystr) (e : exn)
| MsgGenerationCompleted (files_created attempts : Z).

(** One interaction with the outside world, with its outcome. *)
Inductive event : Type :=
| EvSetLang (lang : pystr)
| EvRandom (r : answer pystr)
| EvPage (page_title : pystr) (r : answer WikipediaPage)
| EvSummary (page_title : pystr) (sentences : Z) (r : answer pystr)
| EvRandint (a b : Z) (r : Z)
| EvChoices (population : pystr) (k : nat) (r : pystr)
| EvExists (path : pystr) (r : bool)
| EvMakedirs (path : pystr) (r : answer unit)
| EvWrite (file_name content : pystr) (r : answer unit)
| EvPrint (m : message) (r : answer unit).

(** ** The outside world

    The collaborators of the script: the remote encyclopedia
    ([wikipedia.random], [wikipedia.page], [wikipedia.summary]), the random
    number generator, the file system, and the standard output to which
    [print] writes.  Every call may depend on, and change, the state of the
    world; the lookups, the file system and the output may raise. *)
Class Host (World : Type) : Type := {
  remote_random : World -> answer pystr * World;
  remote_page : pystr -> World -> answer WikipediaPage * World;
  remote_summary : pystr -> Z -> World -> answer pystr * World;
  rng_draw : World -> nat * World;
  fs_exists : pystr -> World -> bool * World;
  fs_makedirs : pystr -> World -> answer unit * World;
  fs_write : pystr -> pystr -> World -> answer unit * World;
  console_print : message -> World -> answer unit * World
}.

(** ** The monad of the script *)

Inductive result (A : Type) : Type :=
| Return (a : A)
| Raise (e : exn)
| OutOfFuel.
Arguments Raise {A} e.
Arguments OutOfFuel {A}.

Record Env (World : Type) : Type := { world : World; trace : list event }.

Definition M (World A : Type) : Type := Env World -> result A * Env World.

Definition ret {World A} (a : A) : M World A := fun env => (Return a, env).

Definition raise {World A} (e : exn) : M World A := fun env => (Raise e, env).

Definition bind {World A B} (m : M World A) (k : A -> M World B) : M World B :=
  fun env =>
    match m env with
    | (Return a, env') => k a env'
    | (Raise e, env') => (Raise e, env')
    | (OutOfFuel, env') => (OutOfFuel, env')
    end.

(** [try: body  except ... as e: handler e].  An exception raised by the
    handler itself is not caught. *)
Definition try_except {World A} (body : M World A) (handler : exn -> M World A)
  : M World A :=
  fun env =>
    match body env with
    | (Raise e, env') => handler e env'
    | other => other
    end.

Declare Scope py_scope.
Delimit Scope py_scope with py.
Notation "x <- m ;; k" := (bind m (fun x => k))
  (at level 61, m at next level, right associativity) : py_scope.
Notation "m ;;; k" := (bind m (fun _ => k))
  (at level 61, right associativity) : py_scope.
Local Open Scope py_scope.

(** A call of the world that may raise, recorded in the transcript. *)
Definition call {World A} (op : World -> answer A * World)
    (ev : answer A -> event) : M World A :=
  fun env =>
    let (a, w) := op (world env) in
    let env' := {| world := w; trace := trace env ++ [ev a] |} in
    match a with
    | Returns x => (Return x, env')
    | Raises e => (Raise e, env')
    end.

(** A call of the world that cannot raise. *)
Definition call_total {World A} (op : World -> A * World) (ev : A -> event)
  : M World A :=
  fun env =>
    let (a, w) := op (world env) in
    (Return a, {| world := w; trace := trace env ++ [ev a] |}).

Definition emit {World} (ev : event) : M World unit :=
  fun env => (Return tt, {| world := world env; trace := trace env ++ [ev] |}).

(** [l[i]] on a Python list. *)
Definition list_index {World A} (l : list A) (i : nat) : M World A :=
  match nth_error l i with
  | Some x => ret x
  | None => raise IndexError
  end.

(** The files that the transcript shows as written: the [open] ... [write]
    blocks that completed. *)
Definition written_by (ev : event) : list (pystr * pystr) :=
  match ev with
  | EvWrite file_name content (Returns _) => [(file_name, content)]
  | _ => []
  end.

Definition files_written (tr : list event) : list (pystr * pystr) :=
  flat_map written_by tr.

(** ** String operations of the script *)

(** [s.replace(old, new)] for a pattern [old] of one character. *)
Definition str_replace (old : codepoint) (new : pystr) (s : pystr) : pystr :=
  flat_map (fun c => if (c =? old)%N then new else [c]) s.

(** The characters of a decimal numeral, most significant digit first. *)
Fixpoint uint_chars (u : Decimal.uint) : pystr :=
  match u with
  | Decimal.Nil => []
  | Decimal.D0 u' => 48%N :: uint_chars u'
  | Decimal.D1 u' => 49%N :: uint_chars u'
  | Decimal.D2 u' => 50%N :: uint_chars u'
  | Decimal.D3 u' => 51%N :: uint_chars u'
  | Decimal.D4 u' => 52%N :: uint_chars u'
  | Decimal.D5 u' => 53%N :: uint_chars u'
  | Decimal.D6 u' => 54%N :: uint_chars u'
  | Decimal.D7 u' => 55%N :: uint_chars u'
  | Decimal.D8 u' => 56%N :: uint_chars u'
  | Decimal.D9 u' => 57%N :: uint_chars u'
  end.

(** [str(n)] for a natural number. *)
Definition str_of_N (n : N) : pystr := uint_chars (N.to_uint n).

(** Zeros on the left, up to [width] characters. *)
Definition zero_pad (width : nat) (s : pystr) : pystr :=
  repeat 48%N (width - length s) ++ s.

(** [f"{n:0{width}d}"]: the sign, when there is one, counts in the width
    and stays in front of the zeros. *)
Definition format_0d (width : nat) (n : Z) : pystr :=
  if n <? 0
  then 45%N :: zero_pad (width - 1) (str_of_N (Z.to_N (- n)))
  else zero_pad width (str_of_N (Z.to_N n)).

Definition startswith_sep (s : pystr) : bool :=
  match s with
  | c :: _ => (c =? 47)%N
  | [] => false
  end.

Definition endswith_sep (s : pystr) : bool :=
  match s with
  | [] => false
  | _ :: _ => (last s 0 =? 47)%N
  end.

(** [os.path.join(a, b)] of [posixpath]: an absolute [b] replaces [a]; the
    separator is added unless [a] is empty or ends with it. *)
Definition os_path_join (a b : pystr) : pystr :=
  if startswith_sep b then b
  else if match a with [] => true | _ :: _ => endswith_sep a end
       then a ++ b
       else a ++ 47%N :: b.

(** Line 61: the base of the file name, from the title of the article. *)
Definition base_name_of (topic : pystr) : pystr :=
  firstn 30
    (str_replace (chr "/") (py "_")
       (str_replace (chr ")") (py "")
          (str_replace (chr "(") (py "")
             (str_replace (chr " ") (py "_") topic)))).

(** Line 62: the f-string, and the path of the file. *)
Definition file_base (files_created : Z) (base_name unique_id : pystr) : pystr :=
  format_0d 3 files_created ++ py "_" ++ base_name ++ py "_" ++ unique_id
    ++ py ".txt".

Definition file_name_of (output_folder : pystr) (files_created : Z)
    (topic unique_id : pystr) : pystr :=
  os_path_join output_folder
    (file_base files_created (base_name_of topic) unique_id).

(** ** Reading a file name back *)

Definition is_digit (c : codepoint) : bool := ((48 <=? c) && (c <=? 57))%N.

(** The numeral that a string starts with. *)
Fixpoint uint_of_chars (s : pystr) : Decimal.uint :=
  match s with
  | [] => Decimal.Nil
  | c :: s' =>
      let u := uint_of_chars s' in
      if (c =? 48)%N then Decimal.D0 u
      else if (c =? 49)%N then Decimal.D1 u
      else if (c =? 50)%N then Decimal.D2 u
      else if (c =? 51)%N then Decimal.D3 u
      else if (c =? 52)%N then Decimal.D4 u
      else if (c =? 53)%N then Decimal.D5 u
      else if (c =? 54)%N then Decimal.D6 u
      else if (c =? 55)%N then Decimal.D7 u
      else if (c =? 56)%N then Decimal.D8 u
      else if (c =? 57)%N then Decimal.D9 u
      else Decimal.Nil
  end.

(** No separator of paths in the string. *)
Definition no_sep (s : pystr) : bool := forallb (fun c => negb (c =? 47)%N) s.

(** [os.path.basename]: what follows the last separator. *)
Definition path_basename (path : pystr) : pystr :=
  fold_left (fun acc c => if (c =? 47)%N then [] else acc ++ [c]) path [].

(** The index that the name of a file starts with. *)
Definition success_index (path : pystr) : Z :=
  Z.of_N (N.of_uint (uint_of_chars (path_basename path))).

Definition success_indices (files : list (pystr * pystr)) : list Z :=
  List.map (fun f => success_index (fst f)) files.

(** The indices [1], ..., [n]. *)
Definition one_to (n : nat) : list Z := List.map Z.of_nat (seq 1 n).

(** ** The naming scheme, in the words of the specification *)

(** Replace spaces with underscores, strip the parentheses, replace the
    slashes with underscores, truncate to at most 30 characters. *)
Definition sanitizeBaseName (title : pystr) : pystr :=
  firstn 30
    (List.map (fun c => if (c =? chr "/")%N then chr "_" else c)
       (filter (fun c => negb ((c =? chr "(")%N || (c =? chr ")")%N))
          (List.map (fun c => if (c =? chr " ")%N then chr "_" else c) title))).

(** [<successIndex zero-padded to 3 digits>_<baseName>_<suffix>.txt] *)
Definition scheme (successIndex : nat) (baseName suffix : pystr) : pystr :=
  zero_pad 3 (str_of_N (N.of_nat successIndex)) ++ py "_" ++ baseName ++ py "_"
    ++ suffix ++ py ".txt".

(** The counters of the generation loop. *)
Record GenerationState : Type := { files_created : Z; attempts : Z }.

(** ** The library calls of the script *)

Section Script.

Context {World : Type} {host : Host World}.

Local Abbreviation M := (M World).

Definition wikipedia_set_lang (lang : pystr) : M unit := emit (EvSetLang lang).

Definition wikipedia_random : M pystr := call remote_random EvRandom.

Definition wikipedia_page (t : pystr) : M WikipediaPage :=
  call (remote_page t) (EvPage t).

Definition wikipedia_summary (t : pystr) (sentences : Z) : M pystr :=
  call (remote_summary t sentences) (EvSummary t sentences).

(** [random.randint(a, b)]: some integer of [a..b]. *)
Definition random_randint (a b : Z) : M Z :=
  call_total
    (fun w => let (d, w') := rng_draw w in
              (a + Z.of_nat d mod (b - a + 1), w'))
    (EvRandint a b).

(** [k] elements of [population], drawn with replacement. *)
Fixpoint choose (population : pystr) (k : nat) (w : World) : pystr * World :=
  match k with
  | O => ([], w)
  | S k' =>
      let (d, w1) := rng_draw w in
      let c := nth (d mod length population)%nat population 0%N in
      let (rest, w2) := choose population k' w1 in
      (c :: rest, w2)
  end.

(** [''.join(random.choices(population, k=k))]; the script's population is
    not empty. *)
Definition random_choices (population : pystr) (k : nat) : M pystr :=
  call_total (choose population k) (EvChoices population k).

Definition os_path_exists (path : pystr) : M bool :=
  call_total (fs_exists path) (EvExists path).

Definition os_makedirs (path : pystr) : M unit :=
  call (fs_makedirs path) (EvMakedirs path).

(** [print(...)]: the standard output may refuse the text (an encoding
    that lacks a character, a closed pipe, a full device). *)
Definition print (m : message) : M unit :=
  call (console_print m) (EvPrint m).

(** [with open(file_name, 'w', encoding='utf-8') as f: f.write(content)] *)
Definition write_file (file_name content : pystr) : M unit :=
  call (fs_write file_name content) (EvWrite file_name content).

(** ** [get_random_wikipedia_article] *)

(** Lines 9 to 18: the body of the outer [try]. *)
Definition first_attempt (num_sentences : Z) : M (option (pystr * pystr)) :=
  wikipedia_set_lang (py "en") ;;;
  random_title <- wikipedia_random ;;
  page <- wikipedia_page random_title ;;
  summary_text <- wikipedia_summary random_title num_sentences ;;
  ret (Some (title page, summary_text)).

(** Lines 26 to 28: the body of the inner [try]. *)
Definition second_attempt (options : list pystr) (num_sentences : Z)
  : M (option (pystr * pystr)) :=
  option0 <- list_index options 0 ;;
  page <- wikipedia_page option0 ;;
  option0 <- list_index options 0 ;;
  summary_text <- wikipedia_summary option0 num_sentences ;;
  ret (Some (title page, summary_text)).

(** Lines 19 to 33: the three [except] clauses of the outer [try].  The
    [print] of line 24 reads [e.options[0]] before the inner [try] starts;
    the bare [except] of line 29 catches everything, [except Exception] of
    line 31 does not catch what derives from [BaseException] only. *)
Definition on_error (num_sentences : Z) (e : exn)
  : M (option (pystr * pystr)) :=
  match e with
  | PageError =>
      print MsgPageNotFound ;;;
      ret None
  | DisambiguationError options =>
      option0 <- list_index options 0 ;;
      print (MsgDisambiguation option0) ;;;
      try_except (second_attempt options num_sentences) (fun _ => ret None)
  | _ =>
      if is_Exception e
      then print (MsgErrorOccurred e) ;;;
           ret None
      else raise e
  end.

Definition get_random_wikipedia_article (num_sentences : Z)
  : M (option (pystr * pystr)) :=
  try_except (first_attempt num_sentences) (on_error num_sentences).

(** ** [create_wiki_files] *)

(** One iteration of the [while] loop, lines 47 to 74. *)
Definition loop_body (output_folder : pystr) (num_files : Z)
    (st : GenerationState) : M GenerationState :=
  let attempts := attempts st + 1 in
  num_sentences <- random_randint 4 7 ;;
  result <- get_random_wikipedia_article num_sentences ;;
  match result with
  | None => ret {| files_created := files_created st; attempts := attempts |}
  | Some (topic, logical_content) =>
      let files_created := files_created st + 1 in
      unique_id <- random_choices (py "0123456789") 4 ;;
      let file_name :=
        file_name_of output_folder files_created topic unique_id in
      files_created <-
        try_except
          (write_file file_name logical_content ;;;
           (if files_created mod 10 =? 0
            then print (MsgFileCreated files_created num_files topic)
            else ret tt) ;;;
           ret files_created)
          (fun e =>
             match e with
             | IOError _ =>
                 print (MsgErrorCreatingFile file_name e) ;;;
                 ret (files_created - 1)
             | _ => raise e
             end) ;;
      ret {| files_created := files_created; attempts := attempts |}
  end.

(** The [while] loop, line 46; [fuel] bounds the number of iterations. *)
Fixpoint while_loop (fuel : nat) (output_folder : pystr) (num_files : Z)
    (st : GenerationState) : M GenerationState :=
  if files_created st <? num_files
  then match fuel with
       | O => fun env => (OutOfFuel, env)
       | S fuel' =>
           st' <- loop_body output_folder num_files st ;;
           while_loop fuel' output_folder num_files st'
       end
  else ret st.

(** Lines 37 to 43: what comes before the loop. *)
Definition prepare (output_folder : pystr) (num_files : Z) : M unit :=
  found <- os_path_exists output_folder ;;
  (if negb found then os_makedirs output_folder else ret tt) ;;;
  print (MsgStarting num_files).

Definition create_wiki_files (fuel : nat) (output_folder : pystr)
    (num_files : Z) : M unit :=
  prepare output_folder num_files ;;;
  st <- while_loop fuel output_folder num_files
          {| files_created := 0; attempts := 0 |} ;;
  print (MsgGenerationCompleted (files_created st) (attempts st)).

(** ** States of the loop and assumptions on the world *)

(** The states in which the condition of the [while] is evaluated, in a run
    that enters the loop in [env0]. *)
Inductive loop_top (output_folder : pystr) (num_files : Z) (env0 : Env World)
  : GenerationState -> Env World -> Prop :=
| top_first :
    loop_top output_folder num_files env0
      {| files_created := 0; attempts := 0 |} env0
| top_next st env st' env' :
    loop_top output_folder num_files env0 st env ->
    files_created st < num_files ->
    loop_body output_folder num_files st env = (Return st', env') ->
    loop_top output_folder num_files env0 st' env'.

(** The [i]-th file of a run: its name is made from index [i], some title
    and some suffix of four decimal digits. *)
Definition named (output_folder : pystr) (i : nat) (f : pystr * pystr) : Prop :=
  exists topic unique_id,
    length unique_id = 4%nat /\
    forallb is_digit unique_id = true /\
    fst f = file_name_of output_folder (Z.of_nat i) topic unique_id.

(** A remote source whose three lookups always succeed. *)
Definition source_always_succeeds : Prop :=
  (forall w, exists t w', remote_random w = (Returns t, w')) /\
  (forall t w, exists p w', remote_page t w = (Returns p, w')) /\
  (forall t n w, exists s w', remote_summary t n w = (Returns s, w')).

(** A file system on which directories and files can always be written. *)
Definition filesystem_always_succeeds : Prop :=
  (forall p w, exists w', fs_makedirs p w = (Returns tt, w')) /\
  (forall f c w, exists w', fs_write f c w = (Returns tt, w')).

(** A world in which the page lookup fails with [PageError] as long as
    [not_found] is positive, and the write fails with [IOError] as long as
    [io_errors] is positive; each failure uses up one unit, and every other
    call, every [print] among them, succeeds and leaves both as they
    are. *)
Record flaky (not_found io_errors : World -> nat) : Prop := {
  flaky_random : forall w, exists t w',
    remote_random w = (Returns t, w') /\
    not_found w' = not_found w /\ io_errors w' = io_errors w;
  flaky_page_fails : forall t w k, not_found w = S k -> exists w',
    remote_page t w = (Raises PageError, w') /\
    not_found w' = k /\ io_errors w' = io_errors w;
  flaky_page : forall t w, not_found w = O -> exists p w',
    remote_page t w = (Returns p, w') /\
    not_found w' = O /\ io_errors w' = io_errors w;
  flaky_summary : forall t n w, exists s w',
    remote_summary t n w = (Returns s, w') /\
    not_found w' = not_found w /\ io_errors w' = io_errors w;
  flaky_draw : forall w,
    not_found (snd (rng_draw w)) = not_found w /\
    io_errors (snd (rng_draw w)) = io_errors w;
  flaky_exists : forall p w,
    not_found (snd (fs_exists p w)) = not_found w /\
    io_errors (snd (fs_exists p w)) = io_errors w;
  flaky_makedirs : forall p w, exists w',
    fs_makedirs p w = (Returns tt, w') /\
    not_found w' = not_found w /\ io_errors w' = io_errors w;
  flaky_write_fails : forall f c w k, io_errors w = S k -> exists msg w',
    fs_write f c w = (Raises (IOError msg), w') /\
    not_found w' = not_found w /\ io_errors w' = k;
  flaky_write : forall f c w, io_errors w = O -> exists w',
    fs_write f c w = (Returns tt, w') /\
    not_found w' = not_found w /\ io_errors w' = O;
  flaky_print : forall m w, exists w',
    console_print m w = (Returns tt, w') /\
    not_found w' = not_found w /\ io_errors w' = io_errors w
}.

(** A standard output that takes every message. *)
Definition console_always_succeeds : Prop :=
  forall m w, exists w', console_print m w = (Returns tt, w').

(** [stored] reads in the world the files that the file system has taken,
    in the order of the writes: a write that completes adds its file, and
    nothing else changes them. *)
Record store_model (stored : World -> list (pystr * pystr)) : Prop := {
  store_write : forall f c w,
    stored (snd (fs_write f c w)) =
    stored w ++ match fst (fs_write f c w) with
                | Returns _ => [(f, c)]
                | Raises _ => []
                end;
  store_random : forall w, stored (snd (remote_random w)) = stored w;
  store_page : forall t w, stored (snd (remote_page t w)) = stored w;
  store_summary : forall t n w, stored (snd (remote_summary t n w)) = stored w;
  store_draw : forall w, stored (snd (rng_draw w)) = stored w;
  store_exists : forall p w, stored (snd (fs_exists p w)) = stored w;
  store_makedirs : forall p w, stored (snd (fs_makedirs p w)) = stored w;
  store_print : forall m w, stored (snd (console_print m w)) = stored w
}.

(** A computation whose transcript tells what the file system has taken:
    it only adds to the transcript, and the files that [stored] reads
    afterwards are those before and those the added events show as
    written. *)
Definition tracks (stored : World -> list (pystr * pystr)) {A : Type}
    (m : M A) : Prop :=
  forall env r env', m env = (r, env') ->
    exists new,
      trace env' = trace env ++ new /\
      stored (world env') = stored (world env) ++ files_written new.




End Script.

(** What a run leaves in [output_folder]: [n] more files written than
    before, the [i]-th of them under a name of the scheme with index [i];
    the indices read back from the names are [1], ..., [n], and no two
    names are the same. *)
Definition produces (output_folder : pystr) (n : nat)
    (before after : list event) : Prop :=
  exists created,
    files_written after = files_written before ++ created /\
    length created = n /\
    Forall2
      (fun i f => exists title suffix,
         length suffix = 4%nat /\
         forallb is_digit suffix = true /\
         fst f = os_path_join output_folder
                   (scheme i (sanitizeBaseName title) suffix))
      (seq 1 n) created /\
    success_indices created = one_to n /\
    NoDup (List.map fst created).

(** ** Test doubles *)

(** A world that answers from scripts, one list per kind of call; when a
    script is used up the call succeeds with a default answer.  [disk]
    keeps the files of the writes that completed. *)
Record Scripted : Type := {
  randoms : list (answer pystr);
  pages : list (answer WikipediaPage);
  summaries : list (answer pystr);
  draws : list nat;
  folder_exists : bool;
  mkdirs : list (answer unit);
  writes : list (answer unit);
  prints : list (answer unit);
  disk : list (pystr * pystr)
}.

Definition set_randoms (v : list (answer pystr)) (w : Scripted) : Scripted :=
  {| randoms := v; pages := pages w; summaries := summaries w;
     draws := draws w; folder_exists := folder_exists w; mkdirs := mkdirs w;
     writes := writes w; prints := prints w; disk := disk w |}.

Definition set_pages (v : list (answer WikipediaPage)) (w : Scripted)
  : Scripted :=
  {| randoms := randoms w; pages := v; summaries := summaries w;
     draws := draws w; folder_exists := folder_exists w; mkdirs := mkdirs w;
     writes := writes w; prints := prints w; disk := disk w |}.

Definition set_summaries (v : list (answer pystr)) (w : Scripted) : Scripted :=
  {| randoms := randoms w; pages := pages w; summaries := v;
     draws := draws w; folder_exists := folder_exists w; mkdirs := mkdirs w;
     writes := writes w; prints := prints w; disk := disk w |}.

Definition set_draws (v : list nat) (w : Scripted) : Scripted :=
  {| randoms := randoms w; pages := pages w; summaries := summaries w;
     draws := v; folder_exists := folder_exists w; mkdirs := mkdirs w;
     writes := writes w; prints := prints w; disk := disk w |}.

Definition set_folder_exists (v : bool) (w : Scripted) : Scripted :=
  {| randoms := randoms w; pages := pages w; summaries := summaries w;
     draws := draws w; folder_exists := v; mkdirs := mkdirs w;
     writes := writes w; prints := prints w; disk := disk w |}.

Definition set_mkdirs (v : list (answer unit)) (w : Scripted) : Scripted :=
  {| randoms := randoms w; pages := pages w; summaries := summaries w;
     draws := draws w; folder_exists := folder_exists w; mkdirs := v;
     writes := writes w; prints := prints w; disk := disk w |}.

Definition set_writes (v : list (answer unit)) (w : Scripted) : Scripted :=
  {| randoms := randoms w; pages := pages w; summaries := summaries w;
     draws := draws w; folder_exists := folder_exists w; mkdirs := mkdirs w;
     writes := v; prints := prints w; disk := disk w |}.

Definition set_prints (v : list (answer unit)) (w : Scripted) : Scripted :=
  {| randoms := randoms w; pages := pages w; summaries := summaries w;
     draws := draws w; folder_exists := folder_exists w; mkdirs := mkdirs w;
     writes := writes w; prints := v; disk := disk w |}.

Definition set_disk (v : list (pystr * pystr)) (w : Scripted) : Scripted :=
  {| randoms := randoms w; pages := pages w; summaries := summaries w;
     draws := draws w; folder_exists := folder_exists w; mkdirs := mkdirs w;
     writes := writes w; prints := prints w; disk := v |}.

(** What a completed call of answer [a] adds to the files. *)
Definition taken (a : answer unit) (f c : pystr) : list (pystr * pystr) :=
  match a with
  | Returns _ => [(f, c)]
  | Raises _ => []
  end.

#[export] Instance scripted_host : Host Scripted := {
  remote_random w :=
    (hd (Returns (py "Lucene")) (randoms w), set_randoms (tl (randoms w)) w);
  remote_page t w :=
    (hd (Returns {| title := t |}) (pages w), set_pages (tl (pages w)) w);
  remote_summary t n w :=
    (hd (Returns (py "About " ++ t)) (summaries w),
     set_summaries (tl (summaries w)) w);
  rng_draw w := (hd O (draws w), set_draws (tl (draws w)) w);
  fs_exists _ w := (folder_exists w, w);
  fs_makedirs _ w :=
    let a := hd (Returns tt) (mkdirs w) in
    (a, set_folder_exists
          (match a with Returns _ => true | Raises _ => folder_exists w end)
          (set_mkdirs (tl (mkdirs w)) w));
  fs_write f c w :=
    let a := hd (Returns tt) (writes w) in
    (a, set_disk (disk w ++ taken a f c) (set_writes (tl (writes w)) w));
  console_print _ w :=
    (hd (Returns tt) (prints w), set_prints (tl (prints w)) w)
}.

Definition quiet : Scripted :=
  {| randoms := []; pages := []; summaries := []; draws := [];
     folder_exists := false; mkdirs := []; writes := []; prints := [];
     disk := [] |}.

Definition start {World} (w : World) : Env World := {| world := w; trace := [] |}.

(** A world whose only state is the files written: every page lookup,
    every write and every print is answered the same way. *)
Definition constant_host (page_answer : pystr -> answer WikipediaPage)
    (write_answer : answer unit) (print_answer : message -> answer unit)
  : Host (list (pystr * pystr)) := {|
  remote_random w := (Returns (py "Lucene"), w);
  remote_page t w := (page_answer t, w);
  remote_summary t n w := (Returns (py "About " ++ t), w);
  rng_draw w := (O, w);
  fs_exists _ w := (false, w);
  fs_makedirs _ w := (Returns tt, w);
  fs_write f c w := (write_answer, w ++ taken write_answer f c);
  console_print m w := (print_answer m, w)
|}.

Definition reliable_host : Host (list (pystr * pystr)) :=
  constant_host (fun t => Returns {| title := t |}) (Returns tt)
    (fun _ => Returns tt).



(** A standard output that cannot encode the check mark of the progress
    message of line 70. *)
Definition no_check_mark (m : message) : answer unit :=
  match m with
  | MsgFileCreated _ _ _ =>
      Raises (OtherException
                (py "UnicodeEncodeError: 'charmap' codec can't encode character"))
  | _ => Returns tt
  end.

Definition narrow_console_host : Host (list (pystr * pystr)) :=
  constant_host (fun t => Returns {| title := t |}) (Returns tt) no_check_mark.



(** A world that counts down the failures it still has to give. *)
Record Countdown : Type := {
  not_found_left : nat;
  io_errors_left : nat;
  kept : list (pystr * pystr)
}.

#[export] Instance countdown_host : Host Countdown := {
  remote_random w := (Returns (py "Lucene"), w);
  remote_page t w :=
    match not_found_left w with
    | O => (Returns {| title := t |}, w)
    | S k =>
        (Raises PageError,
         {| not_found_left := k; io_errors_left := io_errors_left w;
            kept := kept w |})
    end;
  remote_summary t n w := (Returns (py "About " ++ t), w);
  rng_draw w := (O, w);
  fs_exists _ w := (false, w);
  fs_makedirs _ w := (Returns tt, w);
  fs_write f c w :=
    match io_errors_left w with
    | O =>
        (Returns tt,
         {| not_found_left := not_found_left w; io_errors_left := O;
            kept := kept w ++ [(f, c)] |})
    | S k =>
        (Raises (IOError (py "Disk quota exceeded")),
         {| not_found_left := not_found_left w; io_errors_left := k;
            kept := kept w |})
    end;
  console_print _ w := (Returns tt, w)
}.

(** The sampled title is ambiguous and the source lists no candidate. *)
Definition no_candidates : Scripted :=
  set_randoms [Returns (py "Mercury")]
    (set_pages [Raises (DisambiguationError [])] quiet).

(** The sampled title is ambiguous, with two candidates. *)
Definition two_candidates : Scripted :=
  set_randoms [Returns (py "Mercury")]
    (set_pages [Raises (DisambiguationError
                          [py "Mercury (planet)"; py "Mercury (element)"])]
       quiet).

(** The same, on a standard output that refuses the notice of line 24. *)
Definition two_candidates_no_notice : Scripted :=
  set_prints [Raises (OtherException (py "UnicodeEncodeError"))] two_candidates.

(** The sampled title redirects to a page with another title. *)
Definition redirected : Scripted :=
  set_randoms [Returns (py "UK")]
    (set_pages [Returns {| title := py "United Kingdom" |}] quiet).

(** The first lookup finds no page. *)
Definition one_page_missing : Scripted := set_pages [Raises PageError] quiet.

(** The first write fails. *)
Definition one_write_fails : Scripted :=
  set_draws [3%nat; 1%nat; 4%nat]
    (set_folder_exists true
       (set_writes [Raises (IOError (py "Disk quota exceeded"))] quiet)).

(** The first write fails, and the message about it cannot be printed. *)
Definition one_write_fails_unsaid : Scripted :=
  set_prints [Raises (OtherException (py "UnicodeEncodeError"))] one_write_fails.

(** The source samples the title of the example of the specification. *)
Definition long_title : Scripted :=
  set_randoms
    [Returns (py "Foo (Bar)/Baz Very Long Title Exceeding Thirty Chars")]
    (set_draws [2%nat; 3%nat; 1%nat; 4%nat; 1%nat]
       (set_folder_exists true quiet)).

(** The first write is refused with an exception that is not an
    [IOError]. *)
Definition write_rejected : Scripted :=
  set_folder_exists true
    (set_writes [Raises (OtherException (py "surrogates not allowed"))] quiet).

(** The folder is missing and cannot be created. *)
Definition no_folder : Scripted :=
  set_mkdirs [Raises (IOError (py "No such file or directory"))] quiet.

(** The standard output is a pipe that breaks once, while the progress
    message of the tenth file is printed: the second [print] of the run,
    after the opening message. *)
Definition pipe_breaks_once : Scripted :=
  set_folder_exists true
    (set_prints [Returns tt; Raises (IOError (py "Broken pipe"))] quiet).

(** The same pipe, from the first [print] of the loop on. *)
Definition pipe_breaks_in_loop : Scripted :=
  set_folder_exists true
    (set_prints [Raises (IOError (py "Broken pipe"))] quiet).

(** ** Reading a transcript *)

Definition is_random_lookup (ev : event) : bool :=
  match ev with EvRandom _ => true | _ => false end.

Definition is_page_lookup (ev : event) : bool :=
  match ev with EvPage _ _ => true | _ => false end.

Definition is_summary_lookup (ev : event) : bool :=
  match ev with EvSummary _ _ _ => true | _ => false end.

Definition is_randint (ev : event) : bool :=
  match ev with EvRandint _ _ _ => true | _ => false end.

(** A progress message that was printed. *)
Definition is_progress (ev : event) : bool :=
  match ev with
  | EvPrint (MsgFileCreated _ _ _) (Returns _) => true
  | _ => false
  end.

(** A progress message whose [print] raised an [IOError]: the handler of
    line 72 takes the exception for a failed write. *)
Definition is_failed_progress (ev : event) : bool :=
  match ev with
  | EvPrint (MsgFileCreated _ _ _) (Raises (IOError _)) => true
  | _ => false
  end.

(** The final report, printed. *)
Definition is_final_report (ev : event) : bool :=
  match ev with
  | EvPrint (MsgGenerationCompleted _ _) (Returns _) => true
  | _ => false
  end.

Definition count_events (p : event -> bool) (tr : list event) : nat :=
  length (filter p tr).

(** The events that a fetch asked for [num_sentences] sentences can add:
    the choice of the language, lookups, and its own three messages; a
    summary lookup asks for [num_sentences] sentences. *)
Definition fetch_event (num_sentences : Z) (ev : event) : bool :=
  match ev with
  | EvSetLang _ | EvRandom _ | EvPage _ _ => true
  | EvSummary _ sentences _ => sentences =? num_sentences
  | EvPrint (MsgPageNotFound | MsgDisambiguation _ | MsgErrorOccurred _) _ =>
      true
  | _ => false
  end.

(** A summary lookup asks for 4 to 7 sentences. *)
Definition asks_4_to_7 (ev : event) : bool :=
  match ev with
  | EvSummary _ sentences _ => (4 <=? sentences) && (sentences <=? 7)
  | _ => true
  end.

(** What has been added to the transcript since [env0]. *)
Definition events_since {World} (env0 env : Env World) : list event :=
  skipn (length (trace env0)) (trace env).

(** Lines 72 to 74: what the handler of [IOError] adds to the transcript,
    with the result of the iteration. *)
Inductive handled (st : GenerationState) (file_name : pystr) (e0 : exn)
  : result GenerationState -> list event -> Prop :=
| handled_said :
    handled st file_name e0
      (Return {| files_created := files_created st;
                 attempts := attempts st + 1 |})
      [EvPrint (MsgErrorCreatingFile file_name e0) (Returns tt)]
| handled_unsaid e :
    handled st file_name e0 (Raise e)
      [EvPrint (MsgErrorCreatingFile file_name e0) (Raises e)].

(** Lines 56 to 74: what an iteration adds to the transcript after the
    fetch, with the result of the iteration. *)
Inductive iteration_tail {World : Type} {host : Host World}
    (output_folder : pystr) (num_files : Z) (st : GenerationState)
  : result GenerationState -> list event -> Prop :=
| tail_none :
    iteration_tail output_folder num_files st
      (Return {| files_created := files_created st;
                 attempts := attempts st + 1 |}) []
| tail_fetch_raised e :
    iteration_tail output_folder num_files st (Raise e) []
| tail_written topic content unique_id :
    length unique_id = 4%nat ->
    forallb is_digit unique_id = true ->
    iteration_tail output_folder num_files st
      (Return {| files_created := files_created st + 1;
                 attempts := attempts st + 1 |})
      (EvChoices (py "0123456789") 4 unique_id
       :: EvWrite (file_name_of output_folder (files_created st + 1)
                     topic unique_id) content (Returns tt)
       :: (if (files_created st + 1) mod 10 =? 0
           then [EvPrint (MsgFileCreated (files_created st + 1) num_files topic)
                   (Returns tt)]
           else []))
| tail_progress_failed topic content unique_id msg r rest :
    length unique_id = 4%nat ->
    forallb is_digit unique_id = true ->
    (files_created st + 1) mod 10 = 0 ->
    (exists w : World,
       fst (console_print
              (MsgFileCreated (files_created st + 1) num_files topic) w)
       = Raises (IOError msg)) ->
    handled st (file_name_of output_folder (files_created st + 1)
                  topic unique_id) (IOError msg) r rest ->
    iteration_tail output_folder num_files st r
      (EvChoices (py "0123456789") 4 unique_id
       :: EvWrite (file_name_of output_folder (files_created st + 1)
                     topic unique_id) content (Returns tt)
       :: EvPrint (MsgFileCreated (files_created st + 1) num_files topic)
            (Raises (IOError msg))
       :: rest)
| tail_progress_raised topic content unique_id e :
    (files_created st + 1) mod 10 = 0 ->
    (forall msg, e <> IOError msg) ->
    iteration_tail output_folder num_files st (Raise e)
      [EvChoices (py "0123456789") 4 unique_id;
       EvWrite (file_name_of output_folder (files_created st + 1)
                  topic unique_id) content (Returns tt);
       EvPrint (MsgFileCreated (files_created st + 1) num_files topic)
         (Raises e)]
| tail_io_error topic content unique_id msg r rest :
    handled st (file_name_of output_folder (files_created st + 1)
                  topic unique_id) (IOError msg) r rest ->
    iteration_tail output_folder num_files st r
      (EvChoices (py "0123456789") 4 unique_id
       :: EvWrite (file_name_of output_folder (files_created st + 1)
                     topic unique_id) content (Raises (IOError msg))
       :: rest)
| tail_write_raised topic content unique_id e :
    (forall msg, e <> IOError msg) ->
    iteration_tail output_folder num_files st (Raise e)
      [EvChoices (py "0123456789") 4 unique_id;
       EvWrite (file_name_of output_folder (files_created st + 1)
                  topic unique_id) content (Raises e)].

(** Line 79: the entry point of the script, with the default folder. *)
Definition main {World} {host : Host World} (fuel : nat) : M World unit :=
  create_wiki_files fuel (py "data") 100.

(** * Properties *)

Unset Implicit Arguments.

(** ** The file names *)

Lemma str_replace_one (old new : codepoint) (s : pystr) :
  str_replace old [new] s =
  List.map (fun c => if (c =? old)%N then new else c) s.
Proof.
  unfold str_replace.
  induction s as [|c s IH]; simpl; [reflexivity|].
  rewrite IH. now destruct (c =? old)%N.
Qed.

Lemma str_replace_none (old : codepoint) (s : pystr) :
  str_replace old [] s = filter (fun c => negb (c =? old)%N) s.
Proof.
  unfold str_replace.
  induction s as [|c s IH]; simpl; [reflexivity|].
  rewrite IH. now destruct (c =? old)%N.
Qed.

Lemma filter_twice {A} (f g : A -> bool) (l : list A) :
  filter g (filter f l) = filter (fun x => f x && g x) l.
Proof.
  induction l as [|x l IH]; simpl; [reflexivity|].
  destruct (f x); simpl; [destruct (g x)|]; now rewrite IH.
Qed.

(** The chain of [replace] calls of line 61 is the sanitising function of
    the specification. *)
Lemma base_name_of_sanitize (topic : pystr) :
  base_name_of topic = sanitizeBaseName topic.
Proof.
  unfold base_name_of, sanitizeBaseName.
  change (py "_") with [chr "_"]. change (py "") with (@nil codepoint).
  rewrite !str_replace_one, !str_replace_none, filter_twice.
  f_equal. f_equal. apply filter_ext. intros c.
  now rewrite negb_orb.
Qed.

Lemma base_name_of_length (topic : pystr) :
  (length (base_name_of topic) <= 30)%nat.
Proof. unfold base_name_of. rewrite length_firstn. lia. Qed.

Lemma in_firstn {A} (n : nat) (l : list A) (x : A) :
  In x (firstn n l) -> In x l.
Proof.
  revert l; induction n as [|n IH]; intros [|y l]; simpl; try tauto.
  intros [H|H]; [now left | right; now apply IH].
Qed.

(** No space, parenthesis or slash is left in the base name. *)
Lemma base_name_of_clean (topic : pystr) (c : codepoint) :
  In c (base_name_of topic) ->
  c <> chr " " /\ c <> chr "(" /\ c <> chr ")" /\ c <> chr "/".
Proof.
  rewrite base_name_of_sanitize. unfold sanitizeBaseName.
  intros H. apply in_firstn in H.
  apply in_map_iff in H. destruct H as (d & Hd & H).
  apply filter_In in H. destruct H as (H & Hf).
  apply in_map_iff in H. destruct H as (e & He & _).
  apply negb_true_iff, orb_false_iff in Hf. destruct Hf as (Hf1 & Hf2).
  apply N.eqb_neq in Hf1, Hf2.
  assert (Hsp : d <> chr " ").
  { subst d. destruct (N.eqb_spec e (chr " ")); [discriminate|assumption]. }
  destruct (N.eqb_spec d (chr "/")) as [E|E]; subst c.
  - repeat split; discriminate.
  - repeat split; assumption.
Qed.

Lemma uint_chars_digits (u : Decimal.uint) :
  forallb is_digit (uint_chars u) = true.
Proof. induction u; simpl; auto. Qed.

Lemma uint_of_chars_stop (u : Decimal.uint) (c : codepoint) (rest : pystr) :
  is_digit c = false ->
  uint_of_chars (uint_chars u ++ c :: rest) = u.
Proof.
  intros Hc. induction u; simpl; try (now rewrite IHu).
  unfold is_digit in Hc.
  repeat match goal with
  | |- context [(c =? ?k)%N] =>
      destruct (N.eqb_spec c k); [subst c; discriminate Hc|]
  end.
  reflexivity.
Qed.

Lemma uint_of_chars_zeros (k : nat) (s : pystr) :
  N.of_uint (uint_of_chars (repeat 48%N k ++ s)) = N.of_uint (uint_of_chars s).
Proof. induction k as [|k IH]; simpl; [reflexivity|exact IH]. Qed.

(** Reading back the numeral that [format_0d] printed. *)
Lemma uint_of_chars_format (width : nat) (n : N) (c : codepoint) (rest : pystr) :
  is_digit c = false ->
  N.of_uint (uint_of_chars (zero_pad width (str_of_N n) ++ c :: rest)) = n.
Proof.
  intros Hc. unfold zero_pad, str_of_N.
  rewrite <- app_assoc, uint_of_chars_zeros, uint_of_chars_stop by exact Hc.
  apply Unsigned.of_to.
Qed.

Lemma format_0d_nonneg (width : nat) (n : Z) :
  0 <= n -> format_0d width n = zero_pad width (str_of_N (Z.to_N n)).
Proof.
  intros H. unfold format_0d.
  destruct (Z.ltb_spec n 0); [lia|reflexivity].
Qed.

Lemma format_0d_of_nat (i : nat) :
  format_0d 3 (Z.of_nat i) = zero_pad 3 (str_of_N (N.of_nat i)).
Proof.
  rewrite format_0d_nonneg by lia.
  now replace (Z.to_N (Z.of_nat i)) with (N.of_nat i) by lia.
Qed.

Lemma digits_no_sep (s : pystr) : forallb is_digit s = true -> no_sep s = true.
Proof.
  unfold no_sep. rewrite !forallb_forall. intros H c Hc.
  specialize (H c Hc). unfold is_digit in H.
  apply andb_true_iff in H. destruct H as (H & _).
  apply N.leb_le in H. apply negb_true_iff, N.eqb_neq. lia.
Qed.

Lemma zero_pad_no_sep (width : nat) (n : N) :
  no_sep (zero_pad width (str_of_N n)) = true.
Proof.
  unfold zero_pad, no_sep. rewrite forallb_app. apply andb_true_iff. split.
  - apply forallb_forall. intros c Hc. apply repeat_spec in Hc. now subst c.
  - apply digits_no_sep, uint_chars_digits.
Qed.

Lemma base_name_of_no_sep (topic : pystr) : no_sep (base_name_of topic) = true.
Proof.
  apply forallb_forall. intros c Hc.
  apply base_name_of_clean in Hc. destruct Hc as (_ & _ & _ & Hc).
  now apply negb_true_iff, N.eqb_neq.
Qed.

Lemma no_sep_app (a b : pystr) : no_sep (a ++ b) = no_sep a && no_sep b.
Proof. apply forallb_app. Qed.

Lemma file_base_no_sep (i : nat) (topic unique_id : pystr) :
  forallb is_digit unique_id = true ->
  no_sep (file_base (Z.of_nat i) (base_name_of topic) unique_id) = true.
Proof.
  intros Hd. unfold file_base. rewrite format_0d_of_nat.
  rewrite !no_sep_app.
  rewrite zero_pad_no_sep, base_name_of_no_sep, (digits_no_sep _ Hd).
  reflexivity.
Qed.

Lemma basename_fold (p acc : pystr) :
  no_sep p = true ->
  fold_left (fun acc c => if (c =? 47)%N then [] else acc ++ [c]) p acc
  = acc ++ p.
Proof.
  revert acc. induction p as [|c p IH]; intros acc H; simpl.
  - now rewrite app_nil_r.
  - simpl in H. apply andb_true_iff in H. destruct H as (Hc & Hp).
    apply negb_true_iff in Hc. rewrite Hc, IH by exact Hp.
    now rewrite <- app_assoc.
Qed.

Lemma path_basename_after_sep (a b : pystr) :
  no_sep b = true -> path_basename (a ++ 47%N :: b) = b.
Proof.
  intros H. unfold path_basename. rewrite fold_left_app. simpl.
  now rewrite basename_fold.
Qed.

(** The base name of a joined path is the second component, when this one
    holds no separator. *)
Lemma path_basename_join (a b : pystr) :
  no_sep b = true -> path_basename (os_path_join a b) = b.
Proof.
  intros H. unfold os_path_join.
  assert (Hs : startswith_sep b = false).
  { destruct b as [|c b]; [reflexivity|]. simpl in *.
    apply andb_true_iff in H. now apply negb_true_iff. }
  rewrite Hs. destruct a as [|x a].
  - unfold path_basename. now rewrite basename_fold.
  - destruct (endswith_sep (x :: a)) eqn:E.
    + unfold endswith_sep in E. apply N.eqb_eq in E.
      rewrite (app_removelast_last 0%N (l := x :: a)) by discriminate.
      rewrite E, <- app_assoc. simpl. now apply path_basename_after_sep.
    + now apply path_basename_after_sep.
Qed.

(** The index printed in the name of a file is read back from it. *)
Lemma success_index_file_name (output_folder : pystr) (i : nat)
    (topic unique_id : pystr) :
  forallb is_digit unique_id = true ->
  success_index (file_name_of output_folder (Z.of_nat i) topic unique_id)
  = Z.of_nat i.
Proof.
  intros Hd. unfold success_index, file_name_of.
  rewrite path_basename_join by now apply file_base_no_sep.
  unfold file_base. rewrite format_0d_of_nat.
  change (py "_" ++ base_name_of topic ++ py "_" ++ unique_id ++ py ".txt")
    with (95%N :: base_name_of topic ++ py "_" ++ unique_id ++ py ".txt").
  rewrite uint_of_chars_format by reflexivity. lia.
Qed.

(** The name of line 62 follows the scheme of the specification. *)
Lemma file_name_of_scheme (output_folder : pystr) (i : nat)
    (topic unique_id : pystr) :
  file_name_of output_folder (Z.of_nat i) topic unique_id
  = os_path_join output_folder (scheme i (sanitizeBaseName topic) unique_id).
Proof.
  unfold file_name_of, file_base, scheme.
  now rewrite format_0d_of_nat, base_name_of_sanitize.
Qed.

(** ** Tactics for the calls of the world *)

Ltac run_host :=
  repeat match goal with
  | |- context [remote_random ?w] =>
      destruct (remote_random w) as [[?|?] ?]; simpl
  | |- context [remote_page ?t ?w] =>
      destruct (remote_page t w) as [[?|?] ?]; simpl
  | |- context [remote_summary ?t ?n ?w] =>
      destruct (remote_summary t n w) as [[?|?] ?]; simpl
  | |- context [console_print ?m ?w] =>
      destruct (console_print m w) as [[[]|?] ?]; simpl
  | |- context [match ?e with PageError => _ | _ => _ end] =>
      destruct e; simpl
  | |- context [match ?l with [] => _ | _ => _ end] => destruct l; simpl
  end.

Ltac unfold_fetch :=
  unfold get_random_wikipedia_article, first_attempt, on_error,
    second_attempt, try_except, bind, wikipedia_set_lang, wikipedia_random,
    wikipedia_page, wikipedia_summary, print, emit, call, list_index, ret,
    raise.

Ltac unfold_block :=
  unfold try_except, bind, write_file, print, call, ret, raise.

(** ** The monad and the calls *)

Section Properties.

Context {World : Type} {host : Host World}.

Lemma files_written_app (a b : list event) :
  files_written (a ++ b) = files_written a ++ files_written b.
Proof. apply flat_map_app. Qed.

Lemma count_events_app (p : event -> bool) (a b : list event) :
  count_events p (a ++ b) = (count_events p a + count_events p b)%nat.
Proof. unfold count_events. now rewrite filter_app, length_app. Qed.

Lemma events_since_app (env0 env : Env World) new :
  trace env = trace env0 ++ new -> events_since env0 env = new.
Proof.
  intros H. unfold events_since. rewrite H, skipn_app, skipn_all, Nat.sub_diag.
  reflexivity.
Qed.

Lemma bind_return {A B} (m : M World A) (k : A -> M World B) env a env'
    (H : m env = (Return a, env')) :
  bind m k env = k a env'.
Proof. unfold bind. now rewrite H. Qed.

Lemma random_randint_runs (a b : Z) (env : Env World) :
  exists n env',
    random_randint a b env = (Return n, env') /\
    world env' = snd (rng_draw (world env)) /\
    trace env' = trace env ++ [EvRandint a b n].
Proof.
  unfold random_randint, call_total.
  destruct (rng_draw (world env)) as [d w]. simpl.
  eexists. eexists. split; [reflexivity|]. simpl. auto.
Qed.

Lemma random_randint_range (a b : Z) (env : Env World) n env' :
  a <= b ->
  random_randint a b env = (Return n, env') ->
  a <= n <= b /\ trace env' = trace env ++ [EvRandint a b n].
Proof.
  intros L. unfold random_randint, call_total.
  destruct (rng_draw (world env)) as [d w]. intros H. inversion H; subst.
  simpl. split; [|reflexivity].
  pose proof (Z.mod_pos_bound (Z.of_nat d) (b - a + 1)). lia.
Qed.

Lemma digit_population (j : nat) :
  (j < 10)%nat -> is_digit (nth j (py "0123456789") 0%N) = true.
Proof.
  intros H. do 10 (destruct j as [|j]; [reflexivity|]). lia.
Qed.

(** The suffix of line 58: four characters, each a decimal digit. *)
Lemma choose_digits (k : nat) (w : World) :
  length (fst (choose (py "0123456789") k w)) = k /\
  forallb is_digit (fst (choose (py "0123456789") k w)) = true.
Proof.
  revert w. induction k as [|k IH]; intros w; [now split|].
  cbn [choose]. destruct (rng_draw w) as [d w1].
  specialize (IH w1).
  destruct (choose (py "0123456789") k w1) as [rest w2].
  cbn [fst length forallb] in *.
  destruct IH as (IH1 & IH2). split; [now rewrite IH1|].
  rewrite IH2, andb_true_r.
  apply digit_population.
  change (length (py "0123456789")) with 10%nat.
  apply Nat.mod_upper_bound. discriminate.
Qed.

Lemma random_choices_runs (k : nat) (env : Env World) :
  exists unique_id env',
    random_choices (py "0123456789") k env = (Return unique_id, env') /\
    length unique_id = k /\
    forallb is_digit unique_id = true /\
    world env' = snd (choose (py "0123456789") k (world env)) /\
    trace env' = trace env ++ [EvChoices (py "0123456789") k unique_id].
Proof.
  unfold random_choices, call_total.
  pose proof (choose_digits k (world env)) as (H1 & H2).
  destruct (choose (py "0123456789") k (world env)) as [u w]. simpl in *.
  eexists. eexists. split; [reflexivity|]. simpl. auto.
Qed.

Lemma print_runs (m : message) (env : Env World) :
  print m env =
  (match fst (console_print m (world env)) with
   | Returns _ => Return tt
   | Raises e => Raise e
   end,
   {| world := snd (console_print m (world env));
      trace := trace env
        ++ [EvPrint m (fst (console_print m (world env)))] |}).
Proof.
  unfold print, call.
  destruct (console_print m (world env)) as [[[]|e] w]; reflexivity.
Qed.

(** ** [get_random_wikipedia_article] *)

(** The transcript of a fetch: whatever the lookups and the standard
    output answer, the fetch runs to an end and writes no file. *)
Lemma fetch_transcript (n : Z) (env : Env World) r env' :
  get_random_wikipedia_article n env = (r, env') ->
  r <> OutOfFuel /\
  exists fetched,
    trace env' = trace env ++ EvSetLang (py "en") :: fetched /\
    forallb (fetch_event n) fetched = true /\
    count_events is_random_lookup fetched = 1%nat /\
    (count_events is_page_lookup fetched <= 2)%nat /\
    (count_events is_summary_lookup fetched <= 2)%nat.
Proof.
  revert r env'. unfold_fetch. simpl. run_host.
  all: intros r env' H; inversion H; subst; clear H; simpl;
    (split; [discriminate|]);
    rewrite <- ?app_assoc; simpl; eexists; (split; [reflexivity|]);
    simpl; rewrite ?Z.eqb_refl; simpl; repeat split; auto.
Qed.

Lemma fetch_event_not_written n (l : list event) :
  forallb (fetch_event n) l = true -> files_written l = [].
Proof.
  induction l as [|ev l IH]; [reflexivity|]. simpl.
  intros H. apply andb_true_iff in H. destruct H as (H1 & H2).
  unfold files_written in *. simpl. rewrite (IH H2), app_nil_r.
  destruct ev; simpl in *; try reflexivity; discriminate.
Qed.

Lemma fetch_outcome (n : Z) (env : Env World) r env' :
  get_random_wikipedia_article n env = (r, env') ->
  files_written (trace env') = files_written (trace env) /\
  r <> OutOfFuel.
Proof.
  intros H. destruct (fetch_transcript _ _ _ _ H) as (F & fetched & T & E & _).
  split; [|exact F].
  rewrite T, files_written_app.
  change (EvSetLang (py "en") :: fetched)
    with ([EvSetLang (py "en")] ++ fetched).
  rewrite files_written_app, (fetch_event_not_written _ _ E). simpl.
  now rewrite app_nil_r.
Qed.

(** ** One iteration of the loop *)

(** The iteration after a fetch that gave no article. *)
Lemma loop_body_none (output_folder : pystr) (num_files : Z)
    (st : GenerationState) (env : Env World) n env1 env2
    (H1 : random_randint 4 7 env = (Return n, env1))
    (H2 : get_random_wikipedia_article n env1 = (Return None, env2)) :
  loop_body output_folder num_files st env =
  (Return {| files_created := files_created st;
             attempts := attempts st + 1 |}, env2).
Proof.
  unfold loop_body.
  rewrite (bind_return _ _ _ _ _ H1), (bind_return _ _ _ _ _ H2). reflexivity.
Qed.

(** The iteration after a fetch that gave an article: lines 64 to 74 run
    in the state that the draw of the suffix left. *)
Lemma loop_body_some (output_folder : pystr) (num_files : Z)
    (st : GenerationState) (env : Env World)
    n env1 topic content env2 unique_id env3
    (H1 : random_randint 4 7 env = (Return n, env1))
    (H2 : get_random_wikipedia_article n env1
          = (Return (Some (topic, content)), env2))
    (H3 : random_choices (py "0123456789") 4 env2 = (Return unique_id, env3)) :
  let created := files_created st + 1 in
  let file_name := file_name_of output_folder created topic unique_id in
  loop_body output_folder num_files st env =
  bind
    (try_except
       (bind (write_file file_name content)
          (fun _ =>
             bind (if created mod 10 =? 0
                   then print (MsgFileCreated created num_files topic)
                   else ret tt)
               (fun _ => ret created)))
       (fun e =>
          match e with
          | IOError _ =>
              bind (print (MsgErrorCreatingFile file_name e))
                (fun _ => ret (created - 1))
          | _ => raise e
          end))
    (fun files_created =>
       ret {| files_created := files_created; attempts := attempts st + 1 |})
    env3.
Proof.
  intros created file_name. unfold loop_body.
  rewrite (bind_return _ _ _ _ _ H1), (bind_return _ _ _ _ _ H2),
    (bind_return _ _ _ _ _ H3).
  reflexivity.
Qed.

(** The transcript of an iteration: the draw of the number of sentences,
    the fetch, and what lines 56 to 74 add. *)
Lemma loop_body_transcript (output_folder : pystr) (num_files : Z)
    (st : GenerationState) (env : Env World) r env' :
  loop_body output_folder num_files st env = (r, env') ->
  exists n fetched rest,
    trace env' =
    trace env ++ EvRandint 4 7 n :: EvSetLang (py "en") :: fetched ++ rest /\
    4 <= n <= 7 /\
    (forallb (fetch_event n) fetched = true /\
     count_events is_random_lookup fetched = 1%nat) /\
    iteration_tail output_folder num_files st r rest.
Proof.
  destruct (random_randint_runs 4 7 env) as (n & env1 & H1 & _).
  destruct (random_randint_range 4 7 env n env1 ltac:(lia) H1) as (Range & T1).
  destruct (get_random_wikipedia_article n env1) as [r2 env2] eqn:H2.
  destruct (fetch_transcript n env1 r2 env2 H2)
    as (F2 & fetched & T2 & Ev0 & Ev1 & _).
  pose proof (conj Ev0 Ev1) as Ev. clear Ev0 Ev1.
  assert (T : forall rest,
    (trace env2 ++ rest =
     trace env ++ EvRandint 4 7 n :: EvSetLang (py "en") :: fetched ++ rest)).
  { intros rest. rewrite T2, T1, <- !app_assoc. reflexivity. }
  destruct r2 as [[[topic content]|]|e|].
  - destruct (random_choices_runs 4 env2) as (u & env3 & H3 & Lu & Du & _ & T3).
    rewrite (loop_body_some output_folder num_files st _ _ _ _ _ _ _ _ H1 H2 H3).
    cbv zeta. unfold_block.
    set (name := file_name_of output_folder (files_created st + 1) topic u).
    destruct (fs_write name content (world env3)) as [[[]|e] w]; cbn [world trace].
    + destruct ((files_created st + 1) mod 10 =? 0) eqn:Tenth;
        cbn [world trace].
      * destruct (console_print
                    (MsgFileCreated (files_created st + 1) num_files topic) w)
          as [[[]|e] w'] eqn:Said; cbn [world trace].
        -- intros H. inversion H; subst; clear H. exists n, fetched.
           eexists. split; [|split; [exact Range|split; [exact Ev|]]].
           ++ cbn [trace]. rewrite T3, <- !app_assoc. apply T.
           ++ pose proof (tail_written (host := host) output_folder num_files
                            st topic content u Lu Du) as W.
              rewrite Tenth in W. exact W.
        -- apply Z.eqb_eq in Tenth.
           destruct e; cbn [world trace].
           3: destruct (console_print
                          (MsgErrorCreatingFile name (IOError msg)) w')
                as [[[]|e'] w''] eqn:Err; cbn [world trace].
           all: intros H; inversion H; subst; clear H; exists n, fetched;
             eexists; (split; [|split; [exact Range|split; [exact Ev|]]]);
             try (cbn [trace]; rewrite T3, <- !app_assoc; apply T).
           all: try (apply tail_progress_raised;
                     [exact Tenth|intros msg0; discriminate]).
           ++ replace (files_created st + 1 - 1) with (files_created st) by lia.
              apply tail_progress_failed;
                [exact Lu|exact Du|exact Tenth|exists w; now rewrite Said
                |apply handled_said].
           ++ apply tail_progress_failed;
                [exact Lu|exact Du|exact Tenth|exists w; now rewrite Said
                |apply handled_unsaid].
      * intros H. inversion H; subst; clear H. exists n, fetched.
        eexists. split; [|split; [exact Range|split; [exact Ev|]]].
        -- cbn [trace]. rewrite T3, <- !app_assoc. apply T.
        -- pose proof (tail_written (host := host) output_folder num_files
                         st topic content u Lu Du) as W.
           rewrite Tenth in W. exact W.
    + destruct e; cbn [world trace].
      3: destruct (console_print (MsgErrorCreatingFile name (IOError msg)) w)
           as [[[]|e'] w''] eqn:Err; cbn [world trace].
      all: intros H; inversion H; subst; clear H; exists n, fetched;
        eexists; (split; [|split; [exact Range|split; [exact Ev|]]]);
        try (cbn [trace]; rewrite T3, <- !app_assoc; apply T).
      all: try (apply tail_write_raised; intros msg0; discriminate).
      * replace (files_created st + 1 - 1) with (files_created st) by lia.
        apply tail_io_error, handled_said.
      * apply tail_io_error, handled_unsaid.
  - rewrite (loop_body_none output_folder num_files st _ _ _ _ H1 H2).
    intros H. inversion H; subst; clear H. exists n, fetched, [].
    split; [rewrite <- T; now rewrite app_nil_r
           |split; [exact Range|split; [exact Ev|]]].
    apply tail_none.
  - unfold loop_body. unfold bind at 1. rewrite H1. unfold bind at 1.
    rewrite H2. intros H. inversion H; subst; clear H. exists n, fetched, [].
    split; [rewrite <- T; now rewrite app_nil_r
           |split; [exact Range|split; [exact Ev|]]].
    apply tail_fetch_raised.
  - now contradiction F2.
Qed.

Lemma count_events_none (p q : event -> bool) (l : list event) :
  forallb p l = true ->
  (forall ev, p ev = true -> q ev = false) ->
  count_events q l = O.
Proof.
  intros H Q. unfold count_events.
  induction l as [|ev l IH]; [reflexivity|].
  simpl in *. apply andb_true_iff in H. destruct H as (H1 & H2).
  rewrite (Q ev H1). now apply IH.
Qed.

Lemma fetch_event_not_randint n ev :
  fetch_event n ev = true -> is_randint ev = false.
Proof. destruct ev as [| | | | | | | | |m a]; try destruct m; simpl; congruence. Qed.

Lemma fetch_event_not_progress n ev :
  fetch_event n ev = true -> is_progress ev = false.
Proof. destruct ev as [| | | | | | | | |m a]; try destruct m; simpl; congruence. Qed.

Lemma fetch_event_not_failed_progress n ev :
  fetch_event n ev = true -> is_failed_progress ev = false.
Proof. destruct ev as [| | | | | | | | |m a]; try destruct m; simpl; congruence. Qed.

Lemma fetch_event_not_final_report n ev :
  fetch_event n ev = true -> is_final_report ev = false.
Proof. destruct ev as [| | | | | | | | |m a]; try destruct m; simpl; congruence. Qed.

Lemma fetch_event_asks n (l : list event) :
  4 <= n <= 7 ->
  forallb (fetch_event n) l = true -> forallb asks_4_to_7 l = true.
Proof.
  intros R. rewrite !forallb_forall. intros H ev I. specialize (H ev I).
  destruct ev; simpl in *; try reflexivity.
  apply Z.eqb_eq in H. subst. apply andb_true_iff.
  split; apply Z.leb_le; lia.
Qed.

Lemma progress_step (c : Z) :
  0 <= c ->
  (c + 1) / 10 = c / 10 + (if (c + 1) mod 10 =? 0 then 1 else 0).
Proof.
  intros P. destruct (Z.eqb_spec ((c + 1) mod 10) 0);
    Z.to_euclidean_division_equations; lia.
Qed.

(** What lines 56 to 74 have done when the iteration completes: nothing; or
    a file written and then taken for a failure, because the [print] of the
    progress message raised an [IOError]; or a file written and counted. *)
Lemma iteration_tail_return (output_folder : pystr) (num_files : Z)
    (st st' : GenerationState) rest :
  iteration_tail output_folder num_files st (Return st') rest ->
  attempts st' = attempts st + 1 /\
  count_events is_randint rest = O /\
  count_events is_random_lookup rest = O /\
  count_events is_final_report rest = O /\
  forallb asks_4_to_7 rest = true /\
  ((files_created st' = files_created st /\
    files_written rest = [] /\
    count_events is_failed_progress rest = O /\
    count_events is_progress rest = O)
   \/
   (files_created st' = files_created st /\
    (files_created st + 1) mod 10 = 0 /\
    count_events is_failed_progress rest = 1%nat /\
    count_events is_progress rest = O /\
    exists topic content unique_id,
      length unique_id = 4%nat /\
      forallb is_digit unique_id = true /\
      files_written rest =
      [(file_name_of output_folder (files_created st + 1) topic unique_id,
        content)])
   \/
   (files_created st' = files_created st + 1 /\
    count_events is_failed_progress rest = O /\
    Z.of_nat (count_events is_progress rest)
    = (if (files_created st + 1) mod 10 =? 0 then 1 else 0) /\
    exists topic content unique_id,
      length unique_id = 4%nat /\
      forallb is_digit unique_id = true /\
      files_written rest =
      [(file_name_of output_folder (files_created st + 1) topic unique_id,
        content)])).
Proof.
  intros T. inversion T; subst; clear T.
  - repeat split; try reflexivity. left. repeat split.
  - unfold count_events.
    destruct ((files_created st + 1) mod 10 =? 0) eqn:Tenth; simpl;
      (repeat split; try reflexivity);
      right; right; rewrite ?Tenth; (repeat split; try reflexivity);
      exists topic, content, unique_id; auto.
  - match goal with H : handled _ _ _ _ _ |- _ => inversion H; subst; clear H end.
    unfold count_events. simpl. repeat split; try reflexivity.
    right. left. repeat split; try assumption.
    exists topic, content, unique_id. auto.
  - match goal with H : handled _ _ _ _ _ |- _ => inversion H; subst; clear H end.
    unfold count_events. simpl. repeat split; try reflexivity.
    left. repeat split.
Qed.

Lemma iteration_no_final_report (output_folder : pystr) (num_files : Z)
    (st : GenerationState) r rest :
  iteration_tail output_folder num_files st r rest ->
  count_events is_final_report rest = O.
Proof.
  intros T. inversion T; subst; unfold count_events; simpl; try reflexivity.
  - destruct (_ =? 0); reflexivity.
  - match goal with H : handled _ _ _ _ _ |- _ => inversion H; reflexivity end.
  - match goal with H : handled _ _ _ _ _ |- _ => inversion H; reflexivity end.
Qed.

Lemma iteration_tail_runs (output_folder : pystr) (num_files : Z)
    (st : GenerationState) r rest :
  iteration_tail output_folder num_files st r rest -> r <> OutOfFuel.
Proof.
  intros T. inversion T; subst; try discriminate;
    match goal with H : handled _ _ _ _ _ |- _ => inversion H; discriminate end.
Qed.

(** Every iteration runs to an end; when it completes, the attempts went
    up by one, and the count of files by one at most. *)
Lemma loop_body_step (output_folder : pystr) (num_files : Z)
    (st : GenerationState) (env : Env World) r env' :
  loop_body output_folder num_files st env = (r, env') ->
  r <> OutOfFuel /\
  forall st', r = Return st' ->
    attempts st' = attempts st + 1 /\
    (files_created st' = files_created st \/
     files_created st' = files_created st + 1).
Proof.
  intros B.
  destruct (loop_body_transcript _ _ _ _ _ _ B) as (n & f & rest & _ & _ & _ & T).
  split; [exact (iteration_tail_runs _ _ _ _ _ T)|].
  intros st' ->.
  destruct (iteration_tail_return _ _ _ _ _ T)
    as (A & _ & _ & _ & _ & [(C & _)|[(C & _)|(C & _)]]); auto.
Qed.

(** ** The loop *)

Lemma while_loop_exit (fuel : nat) (output_folder : pystr) (num_files : Z)
    (st : GenerationState) (env : Env World) :
  num_files <= files_created st ->
  while_loop fuel output_folder num_files st env = (Return st, env).
Proof.
  intros H. destruct fuel; simpl;
    (destruct (Z.ltb_spec (files_created st) num_files); [lia|reflexivity]).
Qed.

Lemma while_loop_enter (fuel : nat) (output_folder : pystr) (num_files : Z)
    (st : GenerationState) (env : Env World) :
  files_created st < num_files ->
  while_loop (S fuel) output_folder num_files st env =
  bind (loop_body output_folder num_files st)
    (while_loop fuel output_folder num_files) env.
Proof.
  intros H. simpl.
  destruct (Z.ltb_spec (files_created st) num_files); [reflexivity|lia].
Qed.

Lemma while_loop_starved (output_folder : pystr) (num_files : Z)
    (st : GenerationState) (env : Env World) :
  files_created st < num_files ->
  while_loop O output_folder num_files st env = (OutOfFuel, env).
Proof.
  intros H. simpl.
  destruct (Z.ltb_spec (files_created st) num_files); [reflexivity|lia].
Qed.

(** When the loop returns, it returns from the top of an iteration, with
    the condition false. *)
Lemma while_loop_top (output_folder : pystr) (num_files : Z)
    (env0 : Env World) (fuel : nat) :
  forall st env st' env',
    loop_top output_folder num_files env0 st env ->
    while_loop fuel output_folder num_files st env = (Return st', env') ->
    loop_top output_folder num_files env0 st' env' /\
    num_files <= files_created st'.
Proof.
  induction fuel as [|fuel IH]; intros st env st' env' T H;
    destruct (Z.lt_ge_cases (files_created st) num_files) as [C|C].
  - rewrite while_loop_starved in H by exact C. discriminate.
  - rewrite while_loop_exit in H by exact C. inversion H; subst. auto.
  - rewrite while_loop_enter in H by exact C. unfold bind in H.
    destruct (loop_body output_folder num_files st env) as [[st1| |] env1] eqn:B;
      try discriminate.
    apply (IH st1 env1); [|exact H].
    eapply top_next; eassumption.
  - rewrite while_loop_exit in H by exact C. inversion H; subst. auto.
Qed.

Lemma Forall2_snoc {A B} (R : A -> B -> Prop) l1 l2 x y :
  Forall2 R l1 l2 -> R x y -> Forall2 R (l1 ++ [x]) (l2 ++ [y]).
Proof. intros H1 H2. apply Forall2_app; auto. Qed.

(** What holds at the top of every iteration, of the events added since
    the loop was entered.  The files written are as many as the count of
    files and the progress messages whose [print] raised an [IOError];
    when there is none of these, the [i]-th file written has a name made
    from index [i]. *)
Lemma loop_top_invariant (output_folder : pystr) (num_files : Z)
    (env0 : Env World) st env :
  loop_top output_folder num_files env0 st env ->
  let new := events_since env0 env in
  trace env = trace env0 ++ new /\
  0 <= files_created st <= attempts st /\
  Z.of_nat (count_events is_randint new) = attempts st /\
  Z.of_nat (count_events is_random_lookup new) = attempts st /\
  Z.of_nat (count_events is_progress new) = files_created st / 10 /\
  count_events is_final_report new = O /\
  forallb asks_4_to_7 new = true /\
  Z.of_nat (length (files_written new)) =
  files_created st + Z.of_nat (count_events is_failed_progress new) /\
  (count_events is_failed_progress new = O ->
   Forall2 (named output_folder) (seq 1 (length (files_written new)))
     (files_written new)).
Proof.
  induction 1 as [|st env st' env' T IH C B]; cbv zeta in *.
  - rewrite (events_since_app env0 env0 []) by now rewrite app_nil_r.
    simpl. rewrite app_nil_r. repeat split; try reflexivity; try lia.
    intros _. constructor.
  - destruct IH as (E & (P & A) & R & L & G & F & S & W & N).
    set (old := events_since env0 env) in *.
    destruct (loop_body_transcript _ _ _ _ _ _ B)
      as (n & fetched & rest & E' & Range & (Ev & One) & Tail).
    assert (E'' : trace env' =
      trace env0 ++ old
        ++ [EvRandint 4 7 n; EvSetLang (py "en")] ++ fetched ++ rest).
    { rewrite E', E, <- app_assoc. reflexivity. }
    rewrite (events_since_app env0 env' _ E'').
    split; [exact E''|].
    pose proof (count_events_none _ _ _ Ev (fetch_event_not_randint n)) as C1.
    pose proof (count_events_none _ _ _ Ev (fetch_event_not_progress n)) as C2.
    pose proof (count_events_none _ _ _ Ev (fetch_event_not_final_report n)) as C3.
    pose proof (count_events_none _ _ _ Ev (fetch_event_not_failed_progress n))
      as C5.
    pose proof (fetch_event_asks n fetched Range Ev) as C4.
    pose proof (fetch_event_not_written n fetched Ev) as C6.
    rewrite !count_events_app, !forallb_app, !files_written_app,
      C1, C2, C3, C4, C5, C6, One, S.
    destruct (iteration_tail_return _ _ _ _ _ Tail)
      as (A' & R1 & R2 & R3 & R4 & Cases).
    rewrite R1, R2, R3, R4.
    change (count_events is_randint [EvRandint 4 7 n; EvSetLang (py "en")])
      with 1%nat.
    change (count_events is_random_lookup
              [EvRandint 4 7 n; EvSetLang (py "en")]) with O.
    change (count_events is_progress [EvRandint 4 7 n; EvSetLang (py "en")])
      with O.
    change (count_events is_failed_progress
              [EvRandint 4 7 n; EvSetLang (py "en")]) with O.
    change (count_events is_final_report
              [EvRandint 4 7 n; EvSetLang (py "en")]) with O.
    change (files_written [EvRandint 4 7 n; EvSetLang (py "en")])
      with (@nil (pystr * pystr)).
    change (forallb asks_4_to_7 [EvRandint 4 7 n; EvSetLang (py "en")])
      with true.
    cbn [app andb].
    destruct Cases as [(Cn & Wr & Fl & Pr)
                      |[(Cn & Tenth & Fl & Pr & topic & content & u & Lu & Du & Wr)
                       |(Cn & Fl & Pr & topic & content & u & Lu & Du & Wr)]];
      rewrite Wr, Fl, ?app_nil_r, ?length_app, Cn; cbn [length].
    + rewrite Pr. repeat split; try lia. intros Z0. apply N. lia.
    + rewrite Pr. repeat split; try lia.
    + rewrite progress_step by lia. repeat split; try lia.
      intros Z0. rewrite Nat.add_1_r, seq_S. apply Forall2_snoc; [apply N; lia|].
      exists topic, u. simpl. repeat split; try assumption.
      f_equal. lia.
Qed.

(** The count of files never passes a target that is not negative. *)
Lemma loop_top_bound (output_folder : pystr) (num_files : Z)
    (env0 : Env World) st env :
  0 <= num_files ->
  loop_top output_folder num_files env0 st env ->
  files_created st <= num_files.
Proof.
  intros P. induction 1 as [|st env st' env' T IH C B]; [exact P|].
  destruct (loop_body_step _ _ _ _ _ _ B) as (_ & O).
  destruct (O st' eq_refl) as (_ & [E|E]); lia.
Qed.

Lemma loop_top_nothing_to_do (output_folder : pystr) (num_files : Z)
    (env0 : Env World) st env :
  num_files <= 0 ->
  loop_top output_folder num_files env0 st env ->
  st = {| files_created := 0; attempts := 0 |} /\ env = env0.
Proof.
  intros N. induction 1 as [|st env st' env' T IH C B]; [auto|].
  destruct IH as (-> & _). simpl in C. lia.
Qed.

(** On a standard output that takes every message, no progress message
    fails. *)
Lemma loop_top_console (output_folder : pystr) (num_files : Z)
    (env0 : Env World) st env :
  console_always_succeeds ->
  loop_top output_folder num_files env0 st env ->
  count_events is_failed_progress (events_since env0 env) = O.
Proof.
  intros Console. induction 1 as [|st env st' env' T IH C B].
  - now rewrite (events_since_app env0 env0 []) by now rewrite app_nil_r.
  - destruct (loop_top_invariant _ _ _ _ _ T) as (E & _).
    destruct (loop_body_transcript _ _ _ _ _ _ B)
      as (n & fetched & rest & E' & Range & (Ev & One) & Tail).
    assert (E'' : trace env' =
      trace env0 ++ events_since env0 env
        ++ [EvRandint 4 7 n; EvSetLang (py "en")] ++ fetched ++ rest).
    { rewrite E', E at 1. rewrite <- app_assoc. reflexivity. }
    rewrite (events_since_app env0 env' _ E'').
    rewrite !count_events_app, IH,
      (count_events_none _ _ _ Ev (fetch_event_not_failed_progress n)).
    destruct (iteration_tail_return _ _ _ _ _ Tail)
      as (_ & _ & _ & _ & _ & [(_ & _ & Fl & _)|[Bad|(_ & Fl & _)]]);
      try (rewrite Fl; reflexivity).
    exfalso. inversion Tail; subst;
      try (destruct Bad as (_ & _ & Fl & _); unfold count_events in Fl;
           simpl in Fl; try destruct (_ =? 0); simpl in Fl; discriminate).
    + match goal with
      | H : exists w, fst (console_print ?m w) = Raises _ |- _ =>
          destruct H as (w & Hw); destruct (Console m w) as (w' & Ew);
          rewrite Ew in Hw; discriminate
      end.
    + destruct Bad as (_ & _ & Fl & _).
      match goal with H : handled _ _ _ _ _ |- _ => inversion H; subst end.
      unfold count_events in Fl. simpl in Fl. discriminate.
Qed.

Lemma named_indices (output_folder : pystr) (a n : nat) created :
  Forall2 (named output_folder) (seq a n) created ->
  success_indices created = List.map Z.of_nat (seq a n).
Proof.
  remember (seq a n) as l eqn:El. clear El.
  induction 1 as [|i f l created (topic & u & _ & D & E) _ IH]; simpl;
    [reflexivity|].
  rewrite IH, E. f_equal. now apply success_index_file_name.
Qed.

Lemma one_to_NoDup (n : nat) : NoDup (one_to n).
Proof.
  unfold one_to. apply Finite.Injective_map_NoDup; [|apply seq_NoDup].
  intros x y. apply Nat2Z.inj.
Qed.

Lemma indices_names_NoDup created (n : nat) :
  success_indices created = one_to n -> NoDup (List.map fst created).
Proof.
  intros H. apply (NoDup_map_inv success_index).
  unfold success_indices in H. rewrite map_map, H. apply one_to_NoDup.
Qed.

Lemma named_scheme (output_folder : pystr) (l : list nat) created :
  Forall2 (named output_folder) l created ->
  Forall2
    (fun i f => exists title suffix,
       length suffix = 4%nat /\
       forallb is_digit suffix = true /\
       fst f = os_path_join output_folder
                 (scheme i (sanitizeBaseName title) suffix))
    l created.
Proof.
  induction 1 as [|i f l created (topic & u & L & D & E) _ IH];
    constructor; [|exact IH].
  exists topic, u. rewrite E, file_name_of_scheme. auto.
Qed.

Lemma named_produces (output_folder : pystr) (before after : list event)
    created :
  files_written after = files_written before ++ created ->
  Forall2 (named output_folder) (seq 1 (length created)) created ->
  produces output_folder (length created) before after.
Proof.
  intros W N. exists created.
  pose proof (named_indices _ _ _ _ N) as I. fold (one_to (length created)) in I.
  repeat split; try assumption.
  - now apply named_scheme.
  - now apply indices_names_NoDup with (n := length created).
Qed.

(** ** Before the loop *)

Lemma prepare_outcome (output_folder : pystr) (num_files : Z)
    (env : Env World) :
  prepare output_folder num_files env =
  match fs_exists output_folder (world env) with
  | (true, w) =>
      print (MsgStarting num_files)
        {| world := w; trace := trace env ++ [EvExists output_folder true] |}
  | (false, w) =>
      match fs_makedirs output_folder w with
      | (Returns u, w') =>
          print (MsgStarting num_files)
            {| world := w';
               trace := trace env ++ [EvExists output_folder false;
                                      EvMakedirs output_folder (Returns u)] |}
      | (Raises e, w') =>
          (Raise e,
           {| world := w';
              trace := trace env ++ [EvExists output_folder false;
                                     EvMakedirs output_folder (Raises e)] |})
      end
  end.
Proof.
  unfold prepare, bind, os_path_exists, os_makedirs, call_total, call, ret.
  destruct (fs_exists output_folder (world env)) as [[|] w]; simpl.
  - reflexivity.
  - destruct (fs_makedirs output_folder w) as [[u|e] w']; simpl;
      now rewrite <- !app_assoc.
Qed.

Lemma prepare_transcript (output_folder : pystr) (num_files : Z)
    (env : Env World) r env0 :
  prepare output_folder num_files env = (r, env0) ->
  r <> OutOfFuel /\
  files_written (trace env0) = files_written (trace env) /\
  exists pre,
    trace env0 = trace env ++ pre /\ count_events is_final_report pre = O.
Proof.
  rewrite prepare_outcome.
  destruct (fs_exists output_folder (world env)) as [[|] w].
  - rewrite print_runs. cbn [world trace].
    destruct (console_print (MsgStarting num_files) w) as [[[]|e] w'];
      intros H; inversion H; subst; cbn [trace fst]; (split; [discriminate|]);
      rewrite <- app_assoc, files_written_app; simpl; rewrite app_nil_r; eauto.
  - destruct (fs_makedirs output_folder w) as [[u|e] w'].
    + rewrite print_runs. cbn [world trace].
      destruct (console_print (MsgStarting num_files) w') as [[[]|e] w''];
        intros H; inversion H; subst; cbn [trace fst]; (split; [discriminate|]);
        rewrite <- app_assoc, files_written_app; simpl; rewrite app_nil_r; eauto.
    + intros H; inversion H; subst; simpl; (split; [discriminate|]);
        rewrite files_written_app; simpl; rewrite app_nil_r; eauto.
Qed.

(** ** Worlds that fail a number of times *)

Section Flaky.

Variables not_found io_errors : World -> nat.
Hypothesis F : flaky not_found io_errors.

Lemma flaky_console : console_always_succeeds.
Proof.
  intros m w. destruct (@flaky_print _ _ _ _ F m w) as (w' & E & _). eauto.
Qed.

Lemma flaky_choose (population : pystr) (k : nat) (w : World) :
  not_found (snd (choose population k w)) = not_found w /\
  io_errors (snd (choose population k w)) = io_errors w.
Proof.
  revert w. induction k as [|k IH]; intros w; [now split|].
  cbn [choose]. pose proof (@flaky_draw _ _ _ _ F w) as D.
  destruct (rng_draw w) as [d w1]. specialize (IH w1).
  destruct (choose population k w1) as [rest w2]. simpl in *.
  destruct IH, D. split; congruence.
Qed.

Lemma flaky_fetch_fails (n : Z) (env : Env World) (k : nat) :
  not_found (world env) = S k ->
  exists env',
    get_random_wikipedia_article n env = (Return None, env') /\
    not_found (world env') = k /\
    io_errors (world env') = io_errors (world env).
Proof.
  intros H.
  destruct (@flaky_random _ _ _ _ F (world env)) as (t & w1 & E1 & N1 & I1).
  destruct (@flaky_page_fails _ _ _ _ F t w1 k) as (w2 & E2 & N2 & I2);
    [congruence|].
  destruct (@flaky_print _ _ _ _ F MsgPageNotFound w2) as (w3 & E3 & N3 & I3).
  unfold_fetch. simpl. rewrite E1. simpl. rewrite E2. simpl. rewrite E3. simpl.
  eexists. split; [reflexivity|]. simpl. split; congruence.
Qed.

Lemma flaky_fetch (n : Z) (env : Env World) :
  not_found (world env) = O ->
  exists topic content env',
    get_random_wikipedia_article n env = (Return (Some (topic, content)), env') /\
    not_found (world env') = O /\
    io_errors (world env') = io_errors (world env).
Proof.
  intros H.
  destruct (@flaky_random _ _ _ _ F (world env)) as (t & w1 & E1 & N1 & I1).
  destruct (@flaky_page _ _ _ _ F t w1) as (p & w2 & E2 & N2 & I2); [congruence|].
  destruct (@flaky_summary _ _ _ _ F t n w2) as (c & w3 & E3 & N3 & I3).
  unfold_fetch. simpl. rewrite E1. simpl. rewrite E2. simpl. rewrite E3. simpl.
  eexists. eexists. eexists. split; [reflexivity|]. simpl. split; congruence.
Qed.

(** An iteration in a flaky world: it fails as long as a failure is due,
    and creates a file after that. *)
Lemma flaky_iteration (output_folder : pystr) (num_files : Z)
    (st : GenerationState) (env : Env World) :
  exists env',
    match not_found (world env), io_errors (world env) with
    | S k, _ =>
        loop_body output_folder num_files st env =
        (Return {| files_created := files_created st;
                   attempts := attempts st + 1 |}, env') /\
        not_found (world env') = k /\
        io_errors (world env') = io_errors (world env)
    | O, S k =>
        loop_body output_folder num_files st env =
        (Return {| files_created := files_created st;
                   attempts := attempts st + 1 |}, env') /\
        not_found (world env') = O /\ io_errors (world env') = k
    | O, O =>
        loop_body output_folder num_files st env =
        (Return {| files_created := files_created st + 1;
                   attempts := attempts st + 1 |}, env') /\
        not_found (world env') = O /\ io_errors (world env') = O
    end.
Proof.
  destruct (random_randint_runs 4 7 env) as (n & env1 & H1 & W1 & _).
  pose proof (@flaky_draw _ _ _ _ F (world env)) as (N1 & I1).
  rewrite <- W1 in N1, I1.
  destruct (not_found (world env)) as [|k] eqn:NF.
  - destruct (flaky_fetch n env1 N1) as (topic & content & env2 & H2 & N2 & I2).
    destruct (random_choices_runs 4 env2) as (u & env3 & H3 & _ & _ & W3 & _).
    pose proof (flaky_choose (py "0123456789") 4 (world env2)) as (N3 & I3).
    rewrite <- W3 in N3, I3.
    rewrite (loop_body_some output_folder num_files st _ _ _ _ _ _ _ _ H1 H2 H3).
    cbv zeta. unfold_block.
    set (name := file_name_of output_folder (files_created st + 1) topic u).
    destruct (io_errors (world env)) as [|k] eqn:IO.
    + destruct (@flaky_write _ _ _ _ F name content (world env3))
        as (w & E & N4 & I4); [congruence|].
      rewrite E. cbn [world trace].
      destruct ((files_created st + 1) mod 10 =? 0); cbn [world trace].
      * destruct (@flaky_print _ _ _ _ F
                    (MsgFileCreated (files_created st + 1) num_files topic) w)
          as (w' & E' & N5 & I5).
        rewrite E'. eexists. split; [reflexivity|]. simpl. split; congruence.
      * eexists. split; [reflexivity|]. simpl. split; congruence.
    + destruct (@flaky_write_fails _ _ _ _ F name content (world env3) k)
        as (msg & w & E & N4 & I4); [congruence|].
      rewrite E. cbn [world trace].
      destruct (@flaky_print _ _ _ _ F
                  (MsgErrorCreatingFile name (IOError msg)) w)
        as (w' & E' & N5 & I5).
      rewrite E'. cbn [world trace].
      replace (files_created st + 1 - 1) with (files_created st) by lia.
      eexists. split; [reflexivity|]. simpl. split; congruence.
  - destruct (flaky_fetch_fails n env1 k N1) as (env2 & H2 & N2 & I2).
    rewrite (loop_body_none output_folder num_files st _ _ _ _ H1 H2).
    eexists. split; [reflexivity|]. split; congruence.
Qed.

(** In a flaky world the loop ends after one iteration per file and one per
    failure. *)
Lemma while_loop_flaky (output_folder : pystr) (num_files : Z) (fuel : nat) :
  forall st env,
    files_created st <= num_files ->
    (files_created st = num_files ->
     not_found (world env) = O /\ io_errors (world env) = O) ->
    (Z.to_nat (num_files - files_created st)
     + not_found (world env) + io_errors (world env) <= fuel)%nat ->
    exists env',
      while_loop fuel output_folder num_files st env =
      (Return {| files_created := num_files;
                 attempts := attempts st + (num_files - files_created st)
                   + Z.of_nat (not_found (world env) + io_errors (world env)) |},
       env').
Proof.
  induction fuel as [|fuel IH]; intros st env B Z L;
    destruct (Z.eq_dec (files_created st) num_files) as [E|E].
  1, 3: destruct (Z E) as (Z1 & Z2); exists env;
    rewrite while_loop_exit by lia; rewrite Z1, Z2; destruct st; simpl in *;
    do 3 f_equal; lia.
  - lia.
  - rewrite while_loop_enter by lia.
    destruct (flaky_iteration output_folder num_files st env) as (env1 & I).
    destruct (not_found (world env)) as [|k1];
      [destruct (io_errors (world env)) as [|k2]|];
      destruct I as (I & N1 & I1); rewrite (bind_return _ _ _ _ _ I).
    + destruct (IH {| files_created := files_created st + 1;
                      attempts := attempts st + 1 |} env1) as (env' & R);
        [simpl; lia ..|].
      exists env'. rewrite R, N1, I1. simpl. do 3 f_equal. lia.
    + destruct (IH {| files_created := files_created st;
                      attempts := attempts st + 1 |} env1) as (env' & R);
        [simpl; lia ..|].
      exists env'. rewrite R, N1, I1. simpl. do 3 f_equal. lia.
    + destruct (IH {| files_created := files_created st;
                      attempts := attempts st + 1 |} env1) as (env' & R);
        [simpl; lia ..|].
      exists env'. rewrite R, N1, I1. simpl. do 3 f_equal. lia.
Qed.

Lemma flaky_prepare (output_folder : pystr) (num_files : Z) (env : Env World) :
  exists env0,
    prepare output_folder num_files env = (Return tt, env0) /\
    not_found (world env0) = not_found (world env) /\
    io_errors (world env0) = io_errors (world env).
Proof.
  rewrite prepare_outcome.
  pose proof (@flaky_exists _ _ _ _ F output_folder (world env)) as (N1 & I1).
  destruct (fs_exists output_folder (world env)) as [[|] w1]; simpl in *.
  - rewrite print_runs. cbn [world trace].
    destruct (@flaky_print _ _ _ _ F (MsgStarting num_files) w1)
      as (w2 & E & N2 & I2).
    rewrite E. eexists. split; [reflexivity|]. simpl. split; congruence.
  - destruct (@flaky_makedirs _ _ _ _ F output_folder w1) as (w2 & E & N2 & I2).
    rewrite E, print_runs. cbn [world trace].
    destruct (@flaky_print _ _ _ _ F (MsgStarting num_files) w2)
      as (w3 & E3 & N3 & I3).
    rewrite E3. eexists. split; [reflexivity|]. simpl. split; congruence.
Qed.

End Flaky.

(** ** Leaving the loop, or not *)







(** ** The transcript and the file system *)

Section Store.

Variable stored : World -> list (pystr * pystr).
Hypothesis S : store_model stored.

Lemma tracks_ret {A} (a : A) : tracks stored (ret a).
Proof.
  intros env r env' H. inversion H; subst. exists [].
  now rewrite !app_nil_r.
Qed.

Lemma tracks_raise {A} (e : exn) : tracks stored (@raise World A e).
Proof.
  intros env r env' H. inversion H; subst. exists [].
  now rewrite !app_nil_r.
Qed.

Lemma tracks_out_of_fuel {A} :
  tracks stored (fun env : Env World => (@OutOfFuel A, env)).
Proof.
  intros env r env' H. inversion H; subst. exists [].
  now rewrite !app_nil_r.
Qed.

Lemma tracks_bind {A B} (m : M World A) (k : A -> M World B) :
  tracks stored m -> (forall a, tracks stored (k a)) ->
  tracks stored (bind m k).
Proof.
  intros Hm Hk env r env'. unfold bind.
  destruct (m env) as [[a|e|] env1] eqn:E.
  - intros H. destruct (Hm _ _ _ E) as (n1 & T1 & S1).
    destruct (Hk a _ _ _ H) as (n2 & T2 & S2).
    exists (n1 ++ n2).
    rewrite T2, T1, S2, S1, files_written_app, <- !app_assoc. auto.
  - intros H. inversion H; subst. exact (Hm _ _ _ E).
  - intros H. inversion H; subst. exact (Hm _ _ _ E).
Qed.

Lemma tracks_try_except {A} (body : M World A) (handler : exn -> M World A) :
  tracks stored body -> (forall e, tracks stored (handler e)) ->
  tracks stored (try_except body handler).
Proof.
  intros Hb Hh env r env'. unfold try_except.
  destruct (body env) as [[a|e|] env1] eqn:E.
  - intros H. inversion H; subst. exact (Hb _ _ _ E).
  - intros H. destruct (Hb _ _ _ E) as (n1 & T1 & S1).
    destruct (Hh e _ _ _ H) as (n2 & T2 & S2).
    exists (n1 ++ n2).
    rewrite T2, T1, S2, S1, files_written_app, <- !app_assoc. auto.
  - intros H. inversion H; subst. exact (Hb _ _ _ E).
Qed.

Lemma tracks_call {A} (op : World -> answer A * World)
    (ev : answer A -> event) :
  (forall w, stored (snd (op w)) = stored w ++ files_written [ev (fst (op w))]) ->
  tracks stored (call op ev).
Proof.
  intros H env r env'. unfold call. specialize (H (world env)).
  destruct (op (world env)) as [[a|e] w]; intros E; inversion E; subst;
    eexists; split; reflexivity || exact H.
Qed.

Lemma tracks_call_total {A} (op : World -> A * World) (ev : A -> event) :
  (forall w, stored (snd (op w)) = stored w ++ files_written [ev (fst (op w))]) ->
  tracks stored (call_total op ev).
Proof.
  intros H env r env'. unfold call_total. specialize (H (world env)).
  destruct (op (world env)) as [a w]; intros E; inversion E; subst;
    eexists; split; reflexivity || exact H.
Qed.

Lemma tracks_emit (ev : event) :
  files_written [ev] = [] -> tracks stored (emit ev).
Proof.
  intros H env r env' E. inversion E; subst. exists [ev].
  cbn [world trace]. rewrite H, app_nil_r. auto.
Qed.

Lemma store_choose (population : pystr) (k : nat) (w : World) :
  stored (snd (choose population k w)) = stored w.
Proof.
  revert w. induction k as [|k IH]; intros w; [reflexivity|].
  cbn [choose]. pose proof (@store_draw _ _ _ S w) as D.
  destruct (rng_draw w) as [d w1]. specialize (IH w1).
  destruct (choose population k w1) as [rest w2]. simpl in *. congruence.
Qed.

Lemma tracks_print (m : message) : tracks stored (print m).
Proof.
  apply tracks_call. intros w. simpl. rewrite app_nil_r.
  apply (@store_print _ _ _ S).
Qed.

Lemma tracks_page (t : pystr) : tracks stored (wikipedia_page t).
Proof.
  apply tracks_call. intros w. simpl. rewrite app_nil_r.
  apply (@store_page _ _ _ S).
Qed.

Lemma tracks_summary (t : pystr) (n : Z) : tracks stored (wikipedia_summary t n).
Proof.
  apply tracks_call. intros w. simpl. rewrite app_nil_r.
  apply (@store_summary _ _ _ S).
Qed.

Lemma tracks_random : tracks stored wikipedia_random.
Proof.
  apply tracks_call. intros w. simpl. rewrite app_nil_r.
  apply (@store_random _ _ _ S).
Qed.

Lemma tracks_write (f c : pystr) : tracks stored (write_file f c).
Proof.
  apply tracks_call. intros w. rewrite (@store_write _ _ _ S). f_equal.
  unfold files_written. simpl.
  destruct (fst (fs_write f c w)); reflexivity.
Qed.

Lemma tracks_list_index (l : list pystr) (i : nat) :
  tracks stored (@list_index World pystr l i).
Proof.
  unfold list_index. destruct (nth_error l i);
    [apply tracks_ret|apply tracks_raise].
Qed.

Lemma tracks_fetch (n : Z) : tracks stored (get_random_wikipedia_article n).
Proof.
  unfold get_random_wikipedia_article, first_attempt, second_attempt.
  apply tracks_try_except.
  - apply tracks_bind; [now apply tracks_emit|intros _].
    apply tracks_bind; [apply tracks_random|intros t].
    apply tracks_bind; [apply tracks_page|intros p].
    apply tracks_bind; [apply tracks_summary|intros s].
    apply tracks_ret.
  - intros e. unfold on_error, second_attempt. destruct e;
      try (apply tracks_bind; [apply tracks_print|intros _; apply tracks_ret]);
      try apply tracks_raise.
    apply tracks_bind; [apply tracks_list_index|intros o].
    apply tracks_bind; [apply tracks_print|intros _].
    apply tracks_try_except; [|intros _; apply tracks_ret].
    apply tracks_bind; [apply tracks_list_index|intros o1].
    apply tracks_bind; [apply tracks_page|intros p].
    apply tracks_bind; [apply tracks_list_index|intros o2].
    apply tracks_bind; [apply tracks_summary|intros s].
    apply tracks_ret.
Qed.

Lemma tracks_loop_body (output_folder : pystr) (num_files : Z)
    (st : GenerationState) :
  tracks stored (loop_body output_folder num_files st).
Proof.
  unfold loop_body.
  apply tracks_bind.
  { apply tracks_call_total. intros w. simpl. rewrite app_nil_r.
    pose proof (@store_draw _ _ _ S w) as D.
    destruct (rng_draw w); exact D. }
  intros n. apply tracks_bind; [apply tracks_fetch|].
  intros [[topic content]|]; [|apply tracks_ret].
  apply tracks_bind.
  { apply tracks_call_total. intros w.
    unfold files_written. cbn [flat_map written_by app]. rewrite app_nil_r.
    apply store_choose. }
  intros u. apply tracks_bind; [|intros c; apply tracks_ret].
  apply tracks_try_except.
  - apply tracks_bind; [apply tracks_write|intros _].
    apply tracks_bind; [|intros _; apply tracks_ret].
    destruct (_ =? 0); [apply tracks_print|apply tracks_ret].
  - intros e. destruct e; try apply tracks_raise.
    apply tracks_bind; [apply tracks_print|intros _; apply tracks_ret].
Qed.

Lemma tracks_while_loop (fuel : nat) (output_folder : pystr) (num_files : Z) :
  forall st, tracks stored (while_loop fuel output_folder num_files st).
Proof.
  induction fuel as [|fuel IH]; intros st; simpl;
    destruct (files_created st <? num_files); try apply tracks_ret.
  - apply tracks_out_of_fuel.
  - apply tracks_bind; [apply tracks_loop_body|exact IH].
Qed.

(** In a world whose files [stored] reads, the files that a run adds to
    them are those that its transcript shows as written, in order. *)
Lemma tracks_create_wiki_files (fuel : nat) (output_folder : pystr)
    (num_files : Z) :
  tracks stored (create_wiki_files fuel output_folder num_files).
Proof.
  unfold create_wiki_files, prepare.
  apply tracks_bind.
  - apply tracks_bind.
    { apply tracks_call_total. intros w. simpl. rewrite app_nil_r.
      apply (@store_exists _ _ _ S). }
    intros found. apply tracks_bind; [|intros _; apply tracks_print].
    destruct (negb found); [|apply tracks_ret].
    apply tracks_call. intros w. simpl. rewrite app_nil_r.
    apply (@store_makedirs _ _ _ S).
  - intros _. apply tracks_bind; [apply tracks_while_loop|].
    intros st. apply tracks_print.
Qed.

End Store.

End Properties.

(** * The claims *)

(** ** The fetch *)

(** C1 (the code departs from it). The fetch returns a value whatever the
    lookups answer, except on the disambiguation path with an empty list of
    candidates: line 24 reads [e.options[0]] in the handler, outside the
    inner [try], and the [IndexError] leaves the function; the run of
    [create_wiki_files] ends with it. *)
Theorem get_random_wikipedia_article_index_error :
  get_random_wikipedia_article 5 (start no_candidates) =
  (Raise IndexError,
   {| world := quiet;
      trace := [EvSetLang (py "en");
                EvRandom (Returns (py "Mercury"));
                EvPage (py "Mercury") (Raises (DisambiguationError []))] |})
  /\ fst (create_wiki_files 10 (py "data") 1 (start no_candidates))
     = Raise IndexError.
Proof. split; reflexivity. Qed.

(** C5, as the code has it.  The claim fails when the notice of line 24
    cannot be printed: the [print] stands in the [except] clause, before
    the inner [try], so its exception leaves the fetch and no retry is
    made. *)
Lemma get_random_wikipedia_article_notice_refused :
  fst (first_attempt 5 (start two_candidates_no_notice))
  = Raise (DisambiguationError
             [py "Mercury (planet)"; py "Mercury (element)"])
  /\ fst (get_random_wikipedia_article 5 (start two_candidates_no_notice))
     = Raise (OtherException (py "UnicodeEncodeError"))
  /\ trace (snd (get_random_wikipedia_article 5
                   (start two_candidates_no_notice)))
     = [EvSetLang (py "en");
        EvRandom (Returns (py "Mercury"));
        EvPage (py "Mercury")
          (Raises (DisambiguationError
                     [py "Mercury (planet)"; py "Mercury (element)"]));
        EvPrint (MsgDisambiguation (py "Mercury (planet)"))
          (Raises (OtherException (py "UnicodeEncodeError")))].
Proof. repeat split. Qed.

(** C5, amended. When the first attempt ends with a disambiguation error
    that lists candidates and the notice about the first candidate is
    printed, the fetch looks up the page and then the summary of that
    candidate, once each, and returns their result; if either lookup
    raises, whatever the exception, it returns [None] with no further
    lookup.  The other candidates are never used. *)
Theorem get_random_wikipedia_article_first_candidate
    (World : Type) (host : Host World) (n : Z) (env env1 : Env World)
    (candidate : pystr) (others : list pystr) (w0 : World) :
  first_attempt n env
  = (Raise (DisambiguationError (candidate :: others)), env1) ->
  console_print (MsgDisambiguation candidate) (world env1) = (Returns tt, w0) ->
  get_random_wikipedia_article n env =
  let said :=
    trace env1 ++ [EvPrint (MsgDisambiguation candidate) (Returns tt)] in
  match remote_page candidate w0 with
  | (Returns page, w) =>
      match remote_summary candidate n w with
      | (Returns summary_text, w') =>
          (Return (Some (title page, summary_text)),
           {| world := w';
              trace := said ++ [EvPage candidate (Returns page);
                                EvSummary candidate n (Returns summary_text)] |})
      | (Raises e, w') =>
          (Return None,
           {| world := w';
              trace := said ++ [EvPage candidate (Returns page);
                                EvSummary candidate n (Raises e)] |})
      end
  | (Raises e, w) =>
      (Return None,
       {| world := w; trace := said ++ [EvPage candidate (Raises e)] |})
  end.
Proof.
  intros H P. unfold get_random_wikipedia_article, try_except. rewrite H.
  unfold on_error, second_attempt, try_except, bind, wikipedia_page,
    wikipedia_summary, print, call, list_index, ret. simpl.
  rewrite P. simpl.
  destruct (remote_page candidate w0) as [[page|e] w]; simpl.
  - destruct (remote_summary candidate n w) as [[summary_text|e] w']; simpl;
      now rewrite <- !app_assoc.
  - now rewrite <- !app_assoc.
Qed.

Lemma get_random_wikipedia_article_first_candidate_witness :
  first_attempt 5 (start two_candidates)
  = (Raise (DisambiguationError
              [py "Mercury (planet)"; py "Mercury (element)"]),
     {| world := quiet;
        trace := [EvSetLang (py "en");
                  EvRandom (Returns (py "Mercury"));
                  EvPage (py "Mercury")
                    (Raises (DisambiguationError
                               [py "Mercury (planet)";
                                py "Mercury (element)"]))] |})
  /\ fst (get_random_wikipedia_article 5 (start two_candidates))
     = Return (Some (py "Mercury (planet)", py "About Mercury (planet)")).
Proof.
  split; [reflexivity|].
  rewrite (get_random_wikipedia_article_first_candidate Scripted scripted_host
             5 (start two_candidates) _ (py "Mercury (planet)")
             [py "Mercury (element)"] quiet eq_refl eq_refl).
  reflexivity.
Defined.

(** C8. When the three lookups succeed, the fetch returns the title of the
    page that the resolution gave, and the summary that was requested under
    the sampled title; there are sources, those that redirect, for which
    the two titles differ. *)
Theorem get_random_wikipedia_article_titles :
  (forall (World : Type) (host : Host World) (n : Z) (env : Env World)
          random_title w1 page w2 summary_text w3,
     remote_random (world env) = (Returns random_title, w1) ->
     remote_page random_title w1 = (Returns page, w2) ->
     remote_summary random_title n w2 = (Returns summary_text, w3) ->
     get_random_wikipedia_article n env =
     (Return (Some (title page, summary_text)),
      {| world := w3;
         trace := trace env
           ++ [EvSetLang (py "en");
               EvRandom (Returns random_title);
               EvPage random_title (Returns page);
               EvSummary random_title n (Returns summary_text)] |}))
  /\ (exists (w : Scripted) n random_title returned summary_text env',
        get_random_wikipedia_article n (start w)
        = (Return (Some (returned, summary_text)), env') /\
        In (EvSummary random_title n (Returns summary_text)) (trace env') /\
        returned <> random_title).
Proof.
  split.
  - intros World host n env random_title w1 page w2 summary_text w3 H1 H2 H3.
    unfold_fetch. simpl. rewrite H1. simpl. rewrite H2. simpl. rewrite H3.
    simpl. now rewrite <- !app_assoc.
  - exists redirected, 5, (py "UK"), (py "United Kingdom"), (py "About UK").
    eexists. split; [reflexivity|]. split; [|discriminate].
    simpl. auto.
Qed.

Lemma get_random_wikipedia_article_titles_witness :
  fst (get_random_wikipedia_article 5 (start redirected))
  = Return (Some (py "United Kingdom", py "About UK")).
Proof.
  rewrite (proj1 get_random_wikipedia_article_titles Scripted scripted_host 5
             (start redirected) (py "UK") _ {| title := py "United Kingdom" |}
             _ (py "About UK") _ eq_refl eq_refl eq_refl).
  reflexivity.
Defined.

(** ** The driver *)

(** C9, as the code has it.  The claim fails when the folder is missing
    and cannot be created: [os.makedirs] stands outside any [try], its
    exception ends the run, and nothing is printed. *)
Lemma create_wiki_files_no_folder :
  create_wiki_files 0 (py "") 0 (start no_folder) =
  (Raise (IOError (py "No such file or directory")),
   {| world := quiet;
      trace := [EvExists (py "") false;
                EvMakedirs (py "")
                  (Raises (IOError (py "No such file or directory")))] |})
  /\ count_events is_final_report
       (trace (snd (create_wiki_files 0 (py "") 0 (start no_folder)))) = O.
Proof. split; reflexivity. Qed.

(** C9, amended. With [num_files <= 0], when the folder exists or is
    created and the two messages are printed, the body of the loop never
    runs, whatever the fuel: the run consists of the test of the folder,
    its creation when it is missing, the opening message and the final
    report with both counters at zero; no lookup is made and no file is
    written. *)
Theorem create_wiki_files_nothing_to_do
    (World : Type) (host : Host World) (fuel : nat) (output_folder : pystr)
    (num_files : Z) (env : Env World) found w w1 w2 w3 :
  num_files <= 0 ->
  fs_exists output_folder (world env) = (found, w) ->
  (if found then w1 = w
   else fs_makedirs output_folder w = (Returns tt, w1)) ->
  console_print (MsgStarting num_files) w1 = (Returns tt, w2) ->
  console_print (MsgGenerationCompleted 0 0) w2 = (Returns tt, w3) ->
  create_wiki_files fuel output_folder num_files env =
  (Return tt,
   {| world := w3;
      trace := trace env
        ++ EvExists output_folder found
        :: (if found then [] else [EvMakedirs output_folder (Returns tt)])
        ++ [EvPrint (MsgStarting num_files) (Returns tt);
            EvPrint (MsgGenerationCompleted 0 0) (Returns tt)] |}).
Proof.
  intros N E D P1 P2. unfold create_wiki_files. unfold bind at 1.
  rewrite prepare_outcome, E.
  destruct found.
  - subst w1. rewrite print_runs. cbn [world trace]. rewrite P1. cbn [fst snd].
    unfold bind. rewrite while_loop_exit by (simpl; lia).
    rewrite print_runs. cbn [world trace files_created attempts].
    rewrite P2. cbn [fst snd]. now rewrite <- !app_assoc.
  - rewrite D, print_runs. cbn [world trace]. rewrite P1. cbn [fst snd].
    unfold bind. rewrite while_loop_exit by (simpl; lia).
    rewrite print_runs. cbn [world trace files_created attempts].
    rewrite P2. cbn [fst snd]. now rewrite <- !app_assoc.
Qed.

Lemma create_wiki_files_nothing_to_do_witness :
  (-3) <= 0 /\
  create_wiki_files 7 (py "data") (-3) (start quiet) =
  (Return tt,
   {| world := set_folder_exists true quiet;
      trace := [EvExists (py "data") false;
                EvMakedirs (py "data") (Returns tt);
                EvPrint (MsgStarting (-3)) (Returns tt);
                EvPrint (MsgGenerationCompleted 0 0) (Returns tt)] |}).
Proof.
  split; [lia|].
  apply (create_wiki_files_nothing_to_do Scripted scripted_host 7 (py "data")
           (-3) (start quiet) false quiet (set_folder_exists true quiet)
           (set_folder_exists true quiet) (set_folder_exists true quiet));
    [lia | reflexivity | reflexivity | reflexivity | reflexivity].
Defined.

(** ** Runs as a whole *)

Lemma prepare_events (World : Type) (host : Host World)
    (output_folder : pystr) (num_files : Z) (env : Env World) r env0 :
  prepare output_folder num_files env = (r, env0) ->
  exists pre,
    trace env0 = trace env ++ pre /\
    count_events is_failed_progress pre = O /\
    count_events is_final_report pre = O /\
    files_written pre = [].
Proof.
  rewrite prepare_outcome.
  destruct (fs_exists output_folder (world env)) as [[|] w].
  - rewrite print_runs. cbn [world trace].
    destruct (console_print (MsgStarting num_files) w) as [[[]|e] w'];
      intros H; inversion H; subst; cbn [trace fst];
      rewrite <- app_assoc; eexists; (split; [reflexivity|]);
      repeat split.
  - destruct (fs_makedirs output_folder w) as [[u|e] w'].
    + rewrite print_runs. cbn [world trace].
      destruct (console_print (MsgStarting num_files) w') as [[[]|e] w''];
        intros H; inversion H; subst; cbn [trace fst];
        rewrite <- app_assoc; eexists; (split; [reflexivity|]);
        repeat split.
    + intros H; inversion H; subst; cbn [trace].
      eexists; (split; [reflexivity|]); repeat split.
Qed.

Lemma loop_body_no_final_report (World : Type) (host : Host World)
    (output_folder : pystr) (num_files : Z) (st : GenerationState)
    (env : Env World) r env' :
  loop_body output_folder num_files st env = (r, env') ->
  exists new,
    trace env' = trace env ++ new /\ count_events is_final_report new = O.
Proof.
  intros B.
  destruct (loop_body_transcript _ _ _ _ _ _ B)
    as (n & fetched & rest & E & _ & (Ev & _) & Tail).
  eexists. split; [exact E|].
  change (EvRandint 4 7 n :: EvSetLang (py "en") :: fetched ++ rest)
    with ([EvRandint 4 7 n; EvSetLang (py "en")] ++ fetched ++ rest).
  rewrite !count_events_app,
    (count_events_none _ _ _ Ev (fetch_event_not_final_report n)),
    (iteration_no_final_report _ _ _ _ _ Tail).
  reflexivity.
Qed.

Lemma while_loop_no_final_report (World : Type) (host : Host World)
    (output_folder : pystr) (num_files : Z) (fuel : nat) :
  forall st (env : Env World) r env',
    while_loop fuel output_folder num_files st env = (r, env') ->
    exists new,
      trace env' = trace env ++ new /\ count_events is_final_report new = O.
Proof.
  induction fuel as [|fuel IH]; intros st env r env' H;
    destruct (Z.lt_ge_cases (files_created st) num_files) as [C|C].
  - rewrite while_loop_starved in H by exact C. inversion H; subst.
    exists []. now rewrite app_nil_r.
  - rewrite while_loop_exit in H by exact C. inversion H; subst.
    exists []. now rewrite app_nil_r.
  - rewrite while_loop_enter in H by exact C. unfold bind in H.
    destruct (loop_body output_folder num_files st env) as [r1 env1] eqn:B.
    destruct (loop_body_no_final_report World host _ _ _ _ _ _ B)
      as (new1 & E1 & C1).
    destruct r1 as [st1|e|].
    + destruct (IH st1 env1 r env' H) as (new2 & E2 & C2).
      exists (new1 ++ new2). rewrite E2, E1, <- app_assoc, count_events_app.
      split; [reflexivity|lia].
    + inversion H; subst. eauto.
    + inversion H; subst. eauto.
  - rewrite while_loop_exit in H by exact C. inversion H; subst.
    exists []. now rewrite app_nil_r.
Qed.

(** What holds when the run returns, in any world: the files written are
    those of the target and one more for every progress message whose
    [print] raised an [IOError]. *)
Lemma create_wiki_files_returns (World : Type) (host : Host World)
    (fuel : nat) (output_folder : pystr) (num_files : Z)
    (env env' : Env World) :
  create_wiki_files fuel output_folder num_files env = (Return tt, env') ->
  exists created attempts tr,
    files_written (trace env') = files_written (trace env) ++ created /\
    Z.of_nat (length created)
    = Z.max 0 num_files
      + Z.of_nat (count_events is_failed_progress (events_since env env')) /\
    (count_events is_failed_progress (events_since env env') = O ->
     Forall2 (named output_folder) (seq 1 (length created)) created) /\
    trace env' =
    tr ++ [EvPrint (MsgGenerationCompleted (Z.max 0 num_files) attempts)
             (Returns tt)] /\
    Z.max 0 num_files <= attempts /\
    (forall stored : World -> list (pystr * pystr),
       store_model stored ->
       stored (world env') = stored (world env) ++ created).
Proof.
  intros H. pose proof H as H0.
  unfold create_wiki_files in H. unfold bind at 1 in H.
  destruct (prepare output_folder num_files env) as [[[]|e|] env0] eqn:Prep;
    try discriminate.
  destruct (prepare_events World host _ _ _ _ _ Prep)
    as (pre & Epre & Fpre & _ & Wpre).
  unfold bind in H.
  destruct (while_loop fuel output_folder num_files
              {| files_created := 0; attempts := 0 |} env0)
    as [[st'|e|] env1] eqn:Loop; try discriminate.
  rewrite print_runs in H.
  destruct (console_print
              (MsgGenerationCompleted (files_created st') (attempts st'))
              (world env1)) as [[[]|e] w] eqn:P; cbn [fst snd] in H;
    try discriminate.
  inversion H; subst env'; clear H.
  destruct (while_loop_top output_folder num_files env0 fuel _ _ _ _
              (top_first _ _ _) Loop) as (T & Exit).
  destruct (loop_top_invariant _ _ _ _ _ T)
    as (E & B & _ & _ & _ & _ & _ & Len & Names).
  set (newl := events_since env0 env1) in *.
  assert (Count : files_created st' = Z.max 0 num_files).
  { destruct (Z.le_ge_cases 0 num_files) as [Pos|Neg].
    - pose proof (loop_top_bound _ _ _ _ _ Pos T). lia.
    - destruct (loop_top_nothing_to_do _ _ _ _ _ Neg T) as (-> & _).
      simpl. lia. }
  set (final := EvPrint
                  (MsgGenerationCompleted (files_created st') (attempts st'))
                  (Returns tt)) in *.
  assert (Tr : trace env1 ++ [final] = trace env ++ (pre ++ newl ++ [final]))
    by (rewrite E, Epre, <- !app_assoc; reflexivity).
  assert (Wr : files_written (pre ++ newl ++ [final]) = files_written newl).
  { rewrite !files_written_app, Wpre. simpl. now rewrite app_nil_r. }
  rewrite (events_since_app env
             {| world := w; trace := trace env1 ++ [final] |} _ Tr).
  assert (Fl : count_events is_failed_progress (pre ++ newl ++ [final])
               = count_events is_failed_progress newl).
  { rewrite !count_events_app, Fpre. unfold count_events at 2. simpl. lia. }
  rewrite Fl. cbn [trace world].
  exists (files_written newl), (attempts st'), (trace env1).
  split; [rewrite Tr, files_written_app, Wr; reflexivity|].
  split; [lia|]. split; [exact Names|].
  split; [subst final; rewrite Count; reflexivity|].
  split; [lia|].
  intros stored S.
  destruct (tracks_create_wiki_files stored S fuel output_folder num_files
              _ _ _ H0) as (new & En & St).
  cbn [trace world] in En, St. rewrite Tr in En.
  apply app_inv_head in En. subst new. now rewrite Wr in St.
Qed.

(** ** The counters *)

(** C2. Every iteration that completes has added one to the attempts.  It
    has added one to the count of files only when it wrote one more file;
    it has left the count as it was when it wrote no file, and also when it
    wrote a file and the [print] of the progress message then raised an
    [IOError].  After a fetch that gave no article the iteration ends at
    once: the counters apart, the state is the one the fetch left, with no
    file written. *)
Theorem loop_body_counters
    (World : Type) (host : Host World) (output_folder : pystr) (num_files : Z)
    (st : GenerationState) (env : Env World) :
  (forall st' env',
     loop_body output_folder num_files st env = (Return st', env') ->
     attempts st' = attempts st + 1 /\
     ((files_created st' = files_created st /\
       files_written (trace env') = files_written (trace env)) \/
      (files_created st' = files_created st /\
       count_events is_failed_progress (events_since env env') = 1%nat /\
       exists file,
         files_written (trace env') = files_written (trace env) ++ [file]) \/
      (files_created st' = files_created st + 1 /\
       exists file,
         files_written (trace env') = files_written (trace env) ++ [file])))
  /\
  (forall n env1 env2,
     random_randint 4 7 env = (Return n, env1) ->
     get_random_wikipedia_article n env1 = (Return None, env2) ->
     loop_body output_folder num_files st env =
     (Return {| files_created := files_created st;
                attempts := attempts st + 1 |}, env2) /\
     files_written (trace env2) = files_written (trace env)).
Proof.
  split.
  - intros st' env' B.
    destruct (loop_body_transcript _ _ _ _ _ _ B)
      as (n & fetched & rest & E & _ & (Ev & _) & Tail).
    change (EvRandint 4 7 n :: EvSetLang (py "en") :: fetched ++ rest)
      with ([EvRandint 4 7 n; EvSetLang (py "en")] ++ fetched ++ rest) in E.
    assert (W : files_written (trace env')
                = files_written (trace env) ++ files_written rest).
    { rewrite E, !files_written_app, (fetch_event_not_written n fetched Ev).
      reflexivity. }
    assert (F : count_events is_failed_progress (events_since env env')
                = count_events is_failed_progress rest).
    { rewrite (events_since_app env env' _ E), !count_events_app,
        (count_events_none _ _ _ Ev (fetch_event_not_failed_progress n)).
      reflexivity. }
    destruct (iteration_tail_return _ _ _ _ _ Tail)
      as (A & _ & _ & _ & _
          & [(C & Wr & _)
            |[(C & _ & Fp & _ & topic & content & u & _ & _ & Wr)
             |(C & _ & _ & topic & content & u & _ & _ & Wr)]]);
      (split; [exact A|]); rewrite W, Wr.
    + left. now rewrite app_nil_r.
    + right; left. rewrite F. eauto.
    + right; right. eauto.
  - intros n env1 env2 H1 H2. split.
    + now apply loop_body_none with (n := n) (env1 := env1).
    + destruct (fetch_outcome _ _ _ _ H2) as (W & _). rewrite W.
      destruct (random_randint_runs 4 7 env) as (n' & env1' & H1' & _ & T).
      rewrite H1 in H1'. inversion H1'; subst.
      rewrite T, files_written_app. simpl. now rewrite app_nil_r.
Qed.

Lemma loop_body_counters_witness :
  loop_body (py "data") 2 {| files_created := 0; attempts := 0 |}
    (start one_page_missing)
  = (Return {| files_created := 0; attempts := 1 |},
     {| world := quiet;
        trace := [EvRandint 4 7 4; EvSetLang (py "en");
                  EvRandom (Returns (py "Lucene"));
                  EvPage (py "Lucene") (Raises PageError);
                  EvPrint MsgPageNotFound (Returns tt)] |})
  /\ attempts
       (match fst (loop_body (py "data") 2
                     {| files_created := 0; attempts := 0 |} (start quiet))
        with Return st' => st' | _ => {| files_created := 0; attempts := 0 |}
        end) = 1.
Proof.
  split.
  - apply (proj2 (loop_body_counters Scripted scripted_host (py "data") 2
                    {| files_created := 0; attempts := 0 |}
                    (start one_page_missing)) 4
             {| world := one_page_missing; trace := [EvRandint 4 7 4] |});
      reflexivity.
  - destruct (loop_body (py "data") 2 {| files_created := 0; attempts := 0 |}
                (start quiet)) as [[st'| |] env'] eqn:B;
      try (vm_compute in B; discriminate B).
    apply (proj1 (loop_body_counters Scripted scripted_host (py "data") 2
                    {| files_created := 0; attempts := 0 |} (start quiet))
             st' env' B).
Defined.

(** ** The names of the files *)

Example base_name_of_example :
  base_name_of (py "Foo (Bar)/Baz Very Long Title Exceeding Thirty Chars")
  = py "Foo_Bar_Baz_Very_Long_Title_Ex".
Proof. reflexivity. Qed.

Example file_name_of_example :
  file_name_of (py "data") 7
    (py "Foo (Bar)/Baz Very Long Title Exceeding Thirty Chars") (py "3141")
  = py "data/007_Foo_Bar_Baz_Very_Long_Title_Ex_3141.txt".
Proof. reflexivity. Qed.

(** C3 (the code departs from it). The name of a file carries
    [files_created + 1], which is the ordinal of the file among the files
    written only as long as no progress message failed to print: the
    [print] of line 70 stands inside the [try] of the write, so when it
    raises an [IOError] line 74 takes back the count of a file that was
    written, and the next file is written under the same index.  With a
    target of 10 and a standard output that fails once, at the first
    progress message, the run returns after writing 11 files; the eleventh
    carries index 10, as the tenth does, under the very same path. *)
Theorem create_wiki_files_index_reused :
  let run := create_wiki_files 11 (py "data") 10 (start pipe_breaks_once) in
  fst run = Return tt
  /\ List.map fst (files_written (trace (snd run)))
     = [py "data/001_Lucene_0000.txt"; py "data/002_Lucene_0000.txt";
        py "data/003_Lucene_0000.txt"; py "data/004_Lucene_0000.txt";
        py "data/005_Lucene_0000.txt"; py "data/006_Lucene_0000.txt";
        py "data/007_Lucene_0000.txt"; py "data/008_Lucene_0000.txt";
        py "data/009_Lucene_0000.txt"; py "data/010_Lucene_0000.txt";
        py "data/010_Lucene_0000.txt"]
  /\ success_index (fst (nth 10 (files_written (trace (snd run)))
                           ([], []))) = 10
  /\ disk (world (snd run)) = files_written (trace (snd run)).
Proof. vm_compute. repeat split. Qed.

(** C10 (the code departs from it). The count of files falls behind the
    files written when the [print] of a progress message raises an
    [IOError]: it stands inside the [try] of the write, and the handler
    that is meant for a failed write takes the count back.  With a target
    of 10 and a standard output that fails once, the loop is left with a
    count of 10 after 11 files were written, and the indices read back from
    their names are 1 to 10 and 10 again; after ten iterations the loop is
    not done, its count being 9, although 10 files are written. *)
Theorem files_created_behind_files_written :
  let loop := while_loop 11 (py "data") 10
                {| files_created := 0; attempts := 0 |}
                (start pipe_breaks_in_loop) in
  fst loop = Return {| files_created := 10; attempts := 11 |}
  /\ length (files_written (trace (snd loop))) = 11%nat
  /\ success_indices (files_written (trace (snd loop)))
     = [1; 2; 3; 4; 5; 6; 7; 8; 9; 10; 10]
  /\ fst (while_loop 10 (py "data") 10
            {| files_created := 0; attempts := 0 |}
            (start pipe_breaks_in_loop)) = OutOfFuel
  /\ length (files_written
               (trace (snd (while_loop 10 (py "data") 10
                              {| files_created := 0; attempts := 0 |}
                              (start pipe_breaks_in_loop))))) = 10%nat.
Proof. vm_compute. repeat split. Qed.

(** ** Runs in worlds that fail a number of times *)

Lemma always_flaky (World : Type) (host : Host World) :
  source_always_succeeds -> filesystem_always_succeeds ->
  console_always_succeeds ->
  flaky (fun _ : World => O) (fun _ : World => O).
Proof.
  intros (R & P & S) (D & W) C. constructor; intros; try discriminate; auto.
  - destruct (R w) as (t & w' & E). eauto.
  - destruct (P t w) as (p & w' & E). eauto.
  - destruct (S t n w) as (s & w' & E). eauto.
  - destruct (D p w) as (w' & E). eauto.
  - destruct (W f c w) as (w' & E). eauto.
  - destruct (C m w) as (w' & E). eauto.
Qed.

Lemma countdown_flaky :
  @flaky Countdown countdown_host not_found_left io_errors_left.
Proof.
  constructor; intros; try destruct w as [nf io files]; simpl in *; subst;
    eauto 6.
Qed.

Lemma countdown_store : @store_model Countdown countdown_host kept.
Proof.
  constructor; intros; try reflexivity; simpl.
  - destruct (io_errors_left w); simpl; now rewrite ?app_nil_r.
  - destruct (not_found_left w); reflexivity.
Qed.

Lemma scripted_store : @store_model Scripted scripted_host disk.
Proof. constructor; intros; reflexivity. Qed.

Lemma constant_store page_answer write_answer print_answer :
  @store_model _ (constant_host page_answer write_answer print_answer)
    (fun w => w).
Proof. constructor; intros; reflexivity. Qed.

Lemma reliable_source : @source_always_succeeds _ reliable_host.
Proof. repeat split; intros; eexists; eexists; reflexivity. Qed.

Lemma reliable_filesystem : @filesystem_always_succeeds _ reliable_host.
Proof. split; intros; eexists; reflexivity. Qed.

Lemma reliable_console : @console_always_succeeds _ reliable_host.
Proof. intros m w. eexists. reflexivity. Qed.

(** A run in a flaky world: one iteration per failure that is due, one per
    file, and the files of the target, in the transcript and in every
    store of the world. *)
Lemma create_wiki_files_flaky (World : Type) (host : Host World)
    (not_found io_errors : World -> nat) (output_folder : pystr)
    (num_files : Z) (fuel : nat) (env : Env World) :
  flaky not_found io_errors ->
  0 < num_files ->
  (Z.to_nat num_files + not_found (world env) + io_errors (world env)
   <= fuel)%nat ->
  exists env' created,
    create_wiki_files fuel output_folder num_files env = (Return tt, env') /\
    files_written (trace env') = files_written (trace env) ++ created /\
    (forall stored : World -> list (pystr * pystr),
       store_model stored ->
       stored (world env') = stored (world env) ++ created) /\
    produces output_folder (Z.to_nat num_files) (trace env) (trace env') /\
    exists tr,
      trace env' =
      tr ++ [EvPrint
               (MsgGenerationCompleted num_files
                  (num_files
                   + Z.of_nat (not_found (world env) + io_errors (world env))))
               (Returns tt)].
Proof.
  intros F P L.
  destruct (flaky_prepare _ _ F output_folder num_files env)
    as (env0 & Prep & N0 & I0).
  destruct (while_loop_flaky _ _ F output_folder num_files fuel
              {| files_created := 0; attempts := 0 |} env0)
    as (env1 & Loop); simpl; [lia | lia | rewrite N0, I0; lia |].
  simpl in Loop. rewrite N0, I0 in Loop.
  replace (num_files - 0) with num_files in Loop by lia.
  destruct (@flaky_print _ _ _ _ F
              (MsgGenerationCompleted num_files
                 (num_files
                  + Z.of_nat (not_found (world env) + io_errors (world env))))
              (world env1)) as (w & Pr & _).
  assert (R : create_wiki_files fuel output_folder num_files env =
              (Return tt,
               {| world := w;
                  trace := trace env1
                    ++ [EvPrint
                          (MsgGenerationCompleted num_files
                             (num_files
                              + Z.of_nat (not_found (world env)
                                          + io_errors (world env))))
                          (Returns tt)] |})).
  { unfold create_wiki_files.
    rewrite (bind_return _ _ _ _ _ Prep), (bind_return _ _ _ _ _ Loop).
    rewrite print_runs. cbn [files_created attempts]. rewrite Pr.
    reflexivity. }
  destruct (create_wiki_files_returns World host _ _ _ _ _ R)
    as (created & attempts & tr & W & Len & Names & _ & _ & St).
  assert (Fp : count_events is_failed_progress
                 (events_since env
                    {| world := w;
                       trace := trace env1
                         ++ [EvPrint
                               (MsgGenerationCompleted num_files
                                  (num_files
                                   + Z.of_nat (not_found (world env)
                                               + io_errors (world env))))
                               (Returns tt)] |}) = O).
  { destruct (prepare_events World host _ _ _ _ _ Prep)
      as (pre & Epre & Fpre & _ & _).
    destruct (while_loop_top output_folder num_files env0 fuel _ _ _ _
                (top_first _ _ _) Loop) as (T & _).
    pose proof (loop_top_console _ _ _ _ _ (flaky_console _ _ F) T) as Fl.
    destruct (loop_top_invariant _ _ _ _ _ T) as (E & _).
    rewrite (events_since_app env _
               (pre ++ events_since env0 env1
                ++ [EvPrint
                      (MsgGenerationCompleted num_files
                         (num_files
                          + Z.of_nat (not_found (world env)
                                      + io_errors (world env))))
                      (Returns tt)])).
    - rewrite !count_events_app, Fpre, Fl. reflexivity.
    - cbn [trace]. rewrite E, Epre, <- !app_assoc. reflexivity. }
  rewrite Fp in Len. specialize (Names Fp).
  eexists. exists created. split; [exact R|].
  split; [exact W|]. split; [exact St|]. split.
  - replace (Z.to_nat num_files) with (length created) by lia.
    apply named_produces; assumption.
  - exists (trace env1). reflexivity.
Qed.

(** C4, as the code has it.  The claim fails on a standard output that
    cannot encode the check mark of the progress message: with a source
    and a file system that always succeed and a target of 11, the [print]
    of line 70 raises after the tenth file and the run ends there, with 10
    files. *)
Lemma create_wiki_files_progress_unprintable :
  @source_always_succeeds _ narrow_console_host
  /\ @filesystem_always_succeeds _ narrow_console_host
  /\ (forall fuel : nat,
        (11 <= fuel)%nat ->
        fst (@create_wiki_files _ narrow_console_host fuel (py "data") 11
               (start []))
        <> Return tt)
  /\ fst (@create_wiki_files _ narrow_console_host 11 (py "data") 11
            (start []))
     = Raise (OtherException
                (py "UnicodeEncodeError: 'charmap' codec can't encode character"))
  /\ length (world (snd (@create_wiki_files _ narrow_console_host 11
                           (py "data") 11 (start []))))
     = 10%nat.
Proof.
  split; [repeat split; intros; eexists; eexists; reflexivity|].
  split; [split; intros; eexists; reflexivity|].
  split; [|split; vm_compute; reflexivity].
  intros fuel L.
  do 11 (destruct fuel as [|fuel]; [simpl in L; lia|]).
  vm_compute. discriminate.
Qed.

(** C4, amended. For a target [num_files > 0]: with a source whose lookups
    always succeed, a file system whose writes always succeed and a
    standard output that takes every message, the run returns and has
    written exactly [num_files] files, the [i]-th under index [i] padded
    with zeros to three digits, in [num_files] attempts; with a source that
    fails with [PageError] for the first [K] fetches and succeeds
    afterwards, the run still returns with exactly [num_files] files, and
    the attempts it reports are at least [num_files + K].  The files are
    those that the file system has taken. *)
Theorem create_wiki_files_produces_target
    (World : Type) (host : Host World) (output_folder : pystr) (num_files : Z) :
  0 < num_files ->
  (source_always_succeeds -> filesystem_always_succeeds ->
   console_always_succeeds ->
   forall fuel env, (Z.to_nat num_files <= fuel)%nat ->
     exists env' created,
       create_wiki_files fuel output_folder num_files env = (Return tt, env') /\
       files_written (trace env') = files_written (trace env) ++ created /\
       (forall stored : World -> list (pystr * pystr),
          store_model stored ->
          stored (world env') = stored (world env) ++ created) /\
       produces output_folder (Z.to_nat num_files) (trace env) (trace env') /\
       exists tr,
         trace env' =
         tr ++ [EvPrint (MsgGenerationCompleted num_files num_files)
                  (Returns tt)])
  /\
  (forall (not_found io_errors : World -> nat) (K : nat),
     flaky not_found io_errors ->
     forall fuel env,
       not_found (world env) = K ->
       io_errors (world env) = O ->
       (Z.to_nat num_files + K <= fuel)%nat ->
       exists env' created attempts,
         create_wiki_files fuel output_folder num_files env = (Return tt, env') /\
         files_written (trace env') = files_written (trace env) ++ created /\
         (forall stored : World -> list (pystr * pystr),
            store_model stored ->
            stored (world env') = stored (world env) ++ created) /\
         produces output_folder (Z.to_nat num_files) (trace env) (trace env') /\
         (exists tr,
            trace env' =
            tr ++ [EvPrint (MsgGenerationCompleted num_files attempts)
                     (Returns tt)]) /\
         num_files + Z.of_nat K <= attempts).
Proof.
  intros P. split.
  - intros S W C fuel env L.
    destruct (create_wiki_files_flaky World host _ _ output_folder num_files
                fuel env (always_flaky World host S W C) P)
      as (env' & created & R & Wr & St & Files & tr & T); [lia|].
    exists env', created. repeat split; try assumption.
    exists tr. rewrite T. do 4 f_equal. lia.
  - intros not_found io_errors K F fuel env N I L.
    destruct (create_wiki_files_flaky World host _ _ output_folder num_files
                fuel env F P)
      as (env' & created & R & Wr & St & Files & tr & T); [lia|].
    exists env', created, (num_files + Z.of_nat K).
    repeat split; try assumption; [|lia].
    exists tr. rewrite T, N, I. do 5 f_equal. lia.
Qed.

Lemma create_wiki_files_produces_target_witness :
  0 < 3 /\
  (exists env',
     @create_wiki_files _ reliable_host 3 (py "data") 3 (start [])
     = (Return tt, env') /\
     produces (py "data") 3 [] (trace env') /\
     world env' = files_written (trace env')) /\
  (exists env' attempts,
     create_wiki_files 5 (py "data") 3
       (start {| not_found_left := 2; io_errors_left := 0; kept := [] |})
     = (Return tt, env') /\
     produces (py "data") 3 [] (trace env') /\
     kept (world env') = files_written (trace env') /\
     3 + 2 <= attempts).
Proof.
  split; [lia|].
  pose proof (create_wiki_files_produces_target _ reliable_host (py "data")
                3 ltac:(lia)) as (A & _).
  pose proof (create_wiki_files_produces_target Countdown countdown_host
                (py "data") 3 ltac:(lia)) as (_ & B).
  split.
  - destruct (A reliable_source reliable_filesystem reliable_console 3%nat
                (start []))
      as (env' & created & R & Wr & St & Files & _); [simpl; lia|].
    exists env'. split; [exact R|]. split; [exact Files|].
    rewrite Wr. exact (St (fun w => w) (constant_store _ _ _)).
  - destruct (B not_found_left io_errors_left 2%nat countdown_flaky 5%nat
                (start {| not_found_left := 2; io_errors_left := 0;
                          kept := [] |}))
      as (env' & created & attempts & R & Wr & St & Files & _ & Count);
      [reflexivity | reflexivity | simpl; lia |].
    exists env', attempts. split; [exact R|]. split; [exact Files|].
    split; [|exact Count].
    rewrite Wr. exact (St kept countdown_store).
Defined.

(** C6, as the code has it.  The claim fails when the message of line 73
    cannot be printed: the [print] stands in the handler, outside any
    [try], so its exception ends the iteration, the loop and the run. *)
Lemma loop_body_write_failure_unsaid :
  trace (snd (loop_body (py "data") 1
                {| files_created := 0; attempts := 0 |}
                (start one_write_fails_unsaid)))
  = [EvRandint 4 7 7; EvSetLang (py "en");
     EvRandom (Returns (py "Lucene"));
     EvPage (py "Lucene") (Returns {| title := py "Lucene" |});
     EvSummary (py "Lucene") 7 (Returns (py "About Lucene"));
     EvChoices (py "0123456789") 4 (py "1400");
     EvWrite (py "data/001_Lucene_1400.txt") (py "About Lucene")
       (Raises (IOError (py "Disk quota exceeded")));
     EvPrint
       (MsgErrorCreatingFile (py "data/001_Lucene_1400.txt")
          (IOError (py "Disk quota exceeded")))
       (Raises (OtherException (py "UnicodeEncodeError")))]
  /\ fst (loop_body (py "data") 1 {| files_created := 0; attempts := 0 |}
            (start one_write_fails_unsaid))
     = Raise (OtherException (py "UnicodeEncodeError"))
  /\ (forall fuel : nat,
        fst (while_loop (S fuel) (py "data") 1
               {| files_created := 0; attempts := 0 |}
               (start one_write_fails_unsaid))
        = Raise (OtherException (py "UnicodeEncodeError"))).
Proof.
  split; [vm_compute; reflexivity|].
  split; [vm_compute; reflexivity|].
  intros fuel. rewrite while_loop_enter by (simpl; lia).
  unfold bind.
  destruct (loop_body (py "data") 1 {| files_created := 0; attempts := 0 |}
              (start one_write_fails_unsaid)) as [r env'] eqn:B.
  vm_compute in B. inversion B; subst. reflexivity.
Qed.

(** C6, amended. When the write of an iteration fails with an [IOError]
    and the message about it is printed, the iteration ends with the count
    of files as it was before (the tentative increment is taken back) and
    one more attempt, no file is recorded as written, and the loop goes on.
    In a run whose first [K] writes fail in this way and whose later writes
    succeed, on a standard output that takes every message, the run returns
    with exactly the target number of files. *)
Theorem create_wiki_files_write_failure
    (World : Type) (host : Host World) (output_folder : pystr) (num_files : Z) :
  (forall (st : GenerationState) (env : Env World)
          n env1 topic content env2 unique_id env3 msg w w',
     random_randint 4 7 env = (Return n, env1) ->
     get_random_wikipedia_article n env1
     = (Return (Some (topic, content)), env2) ->
     random_choices (py "0123456789") 4 env2 = (Return unique_id, env3) ->
     let file_name :=
       file_name_of output_folder (files_created st + 1) topic unique_id in
     fs_write file_name content (world env3) = (Raises (IOError msg), w) ->
     console_print (MsgErrorCreatingFile file_name (IOError msg)) w
     = (Returns tt, w') ->
     exists env',
       loop_body output_folder num_files st env =
       (Return {| files_created := files_created st;
                  attempts := attempts st + 1 |}, env') /\
       env' =
       {| world := w';
          trace := trace env3
            ++ [EvWrite file_name content (Raises (IOError msg));
                EvPrint (MsgErrorCreatingFile file_name (IOError msg))
                  (Returns tt)] |} /\
       files_written (trace env') = files_written (trace env))
  /\
  (forall (not_found io_errors : World -> nat) (K : nat),
     flaky not_found io_errors ->
     0 < num_files ->
     forall fuel env,
       not_found (world env) = O ->
       io_errors (world env) = K ->
       (Z.to_nat num_files + K <= fuel)%nat ->
       exists env' created,
         create_wiki_files fuel output_folder num_files env = (Return tt, env') /\
         files_written (trace env') = files_written (trace env) ++ created /\
         (forall stored : World -> list (pystr * pystr),
            store_model stored ->
            stored (world env') = stored (world env) ++ created) /\
         produces output_folder (Z.to_nat num_files) (trace env) (trace env') /\
         exists tr,
           trace env' =
           tr ++ [EvPrint (MsgGenerationCompleted num_files
                             (num_files + Z.of_nat K)) (Returns tt)]).
Proof.
  split.
  - intros st env n env1 topic content env2 u env3 msg w w' H1 H2 H3
      file_name E P.
    pose proof (loop_body_some output_folder num_files st _ _ _ _ _ _ _ _
                  H1 H2 H3) as B.
    cbv zeta in B. fold file_name in B.
    assert (R : loop_body output_folder num_files st env =
                (Return {| files_created := files_created st;
                           attempts := attempts st + 1 |},
                 {| world := w';
                    trace := trace env3
                      ++ [EvWrite file_name content (Raises (IOError msg));
                          EvPrint
                            (MsgErrorCreatingFile file_name (IOError msg))
                            (Returns tt)] |})).
    { rewrite B. unfold_block. rewrite E. cbn [world trace fst snd].
      rewrite P. cbn [world trace fst snd].
      rewrite <- app_assoc. do 3 f_equal. lia. }
    eexists. split; [exact R|]. split; [reflexivity|]. cbn [trace].
    destruct (fetch_outcome _ _ _ _ H2) as (W2 & _).
    destruct (random_randint_runs 4 7 env) as (n' & env1' & H1' & _ & T1).
    rewrite H1 in H1'. inversion H1'; subst n' env1'.
    destruct (random_choices_runs 4 env2) as (u' & env3' & H3' & _ & _ & _ & T3).
    rewrite H3 in H3'. inversion H3'; subst u' env3'.
    rewrite files_written_app, T3, files_written_app, W2, T1, files_written_app.
    simpl. now rewrite !app_nil_r.
  - intros not_found io_errors K F P fuel env N I L.
    destruct (create_wiki_files_flaky World host _ _ output_folder num_files
                fuel env F P)
      as (env' & created & R & Wr & St & Files & tr & T); [lia|].
    exists env', created. repeat split; try assumption.
    exists tr. rewrite T, N, I. reflexivity.
Qed.

Lemma create_wiki_files_write_failure_witness :
  (exists env',
     loop_body (py "data") 2 {| files_created := 0; attempts := 0 |}
       (start one_write_fails)
     = (Return {| files_created := 0; attempts := 1 |}, env') /\
     files_written (trace env') = []) /\
  (exists env',
     create_wiki_files 4 (py "data") 2
       (start {| not_found_left := 0; io_errors_left := 2; kept := [] |})
     = (Return tt, env') /\
     produces (py "data") 2 [] (trace env') /\
     kept (world env') = files_written (trace env')).
Proof.
  pose proof (create_wiki_files_write_failure Scripted scripted_host
                (py "data") 2) as (A & _).
  pose proof (create_wiki_files_write_failure Countdown countdown_host
                (py "data") 2) as (_ & B).
  split.
  - pose (env1 := snd (random_randint 4 7 (start one_write_fails))).
    pose (env2 := snd (get_random_wikipedia_article 7 env1)).
    pose (env3 := snd (random_choices (py "0123456789") 4 env2)).
    pose (file_name := file_name_of (py "data") 1 (py "Lucene") (py "1400")).
    pose (w := snd (fs_write file_name (py "About Lucene") (world env3))).
    pose (w' := snd (console_print
                       (MsgErrorCreatingFile file_name
                          (IOError (py "Disk quota exceeded"))) w)).
    assert (H1 : random_randint 4 7 (start one_write_fails) = (Return 7, env1))
      by (vm_compute; reflexivity).
    assert (H2 : get_random_wikipedia_article 7 env1
                 = (Return (Some (py "Lucene", py "About Lucene")), env2))
      by (vm_compute; reflexivity).
    assert (H3 : random_choices (py "0123456789") 4 env2
                 = (Return (py "1400"), env3))
      by (vm_compute; reflexivity).
    assert (H4 : fs_write file_name (py "About Lucene") (world env3)
                 = (Raises (IOError (py "Disk quota exceeded")), w))
      by (vm_compute; reflexivity).
    assert (H5 : console_print
                   (MsgErrorCreatingFile file_name
                      (IOError (py "Disk quota exceeded"))) w
                 = (Returns tt, w'))
      by (vm_compute; reflexivity).
    destruct (A {| files_created := 0; attempts := 0 |} (start one_write_fails)
                7 env1 (py "Lucene") (py "About Lucene") env2 (py "1400") env3
                (py "Disk quota exceeded") w w' H1 H2 H3 H4 H5)
      as (env' & R & _ & W).
    exists env'. split; assumption.
  - destruct (B not_found_left io_errors_left 2%nat countdown_flaky
                ltac:(lia) 4%nat
                (start {| not_found_left := 0; io_errors_left := 2;
                          kept := [] |}))
      as (env' & created & R & Wr & St & Files & _);
      [reflexivity | reflexivity | simpl; lia |].
    exists env'. split; [exact R|]. split; [exact Files|].
    rewrite Wr. exact (St kept countdown_store).
Defined.

(** ** Termination *)







(** * Further properties *)

(** ** More on the fetch *)

Lemma first_attempt_runs (World : Type) (host : Host World) (n : Z)
    (env : Env World) :
  fst (first_attempt n env) <> OutOfFuel.
Proof.
  unfold first_attempt, bind, wikipedia_set_lang, wikipedia_random,
    wikipedia_page, wikipedia_summary, emit, call, ret.
  simpl. run_host; discriminate.
Qed.

Lemma second_attempt_caught (World : Type) (host : Host World)
    (options : list pystr) (n : Z) (env : Env World) :
  exists v env',
    try_except (second_attempt options n) (fun _ => ret None) env
    = (Return v, env').
Proof.
  unfold try_except, second_attempt, bind, wikipedia_page, wikipedia_summary,
    list_index, call, ret, raise.
  destruct options as [|candidate others]; simpl; [eauto|].
  run_host; eauto.
Qed.

(** X1. What leaves the fetch.  The fetch lets an exception through in
    three cases only: the first attempt ended with a disambiguation error
    that lists no candidate, and the exception is [IndexError]; the first
    attempt ended with an exception that is not an [Exception]
    ([KeyboardInterrupt], [SystemExit]), and it is that one; the first
    attempt ended with another exception and the [print] of the message
    about it raised, and it is the exception of the [print].  Nothing that
    the retry raises leaves the fetch. *)
Theorem get_random_wikipedia_article_raises_iff
    (World : Type) (host : Host World) (n : Z) (env : Env World) :
  (forall e env',
     get_random_wikipedia_article n env = (Raise e, env') <->
     (e = IndexError /\
      first_attempt n env = (Raise (DisambiguationError []), env'))
     \/ (is_Exception e = false /\ first_attempt n env = (Raise e, env'))
     \/ (exists e1 env1,
           first_attempt n env = (Raise e1, env1) /\
           match e1 with
           | PageError => print MsgPageNotFound env1 = (Raise e, env')
           | DisambiguationError [] => False
           | DisambiguationError (candidate :: _) =>
               print (MsgDisambiguation candidate) env1 = (Raise e, env')
           | _ =>
               is_Exception e1 = true /\
               print (MsgErrorOccurred e1) env1 = (Raise e, env')
           end))
  /\ fst (get_random_wikipedia_article n env) <> OutOfFuel.
Proof.
  pose proof (first_attempt_runs World host n env) as Runs.
  unfold get_random_wikipedia_article, try_except.
  destruct (first_attempt n env) as [[v|e1|] env1] eqn:FA;
    [| |now contradiction Runs].
  - split; [|discriminate]. intros e env'. split; [discriminate|].
    intros [(_ & H)|[(_ & H)|(e1 & env1' & H & _)]]; discriminate.
  - assert (Said : forall m (k : M World (option (pystr * pystr))),
              (forall env2, exists v env3, k env2 = (Return v, env3)) ->
              (forall e env',
                 bind (print m) (fun _ => k) env1 = (Raise e, env') <->
                 print m env1 = (Raise e, env')) /\
              fst (bind (print m) (fun _ => k) env1) <> OutOfFuel).
    { intros m k K. unfold bind. rewrite print_runs.
      destruct (console_print m (world env1)) as [[[]|e0] w]; cbn [fst snd].
      - destruct (K {| world := w;
                       trace := trace env1 ++ [EvPrint m (Returns tt)] |})
          as (v & env3 & ->).
        split; [|discriminate]. intros e env'. split; discriminate.
      - split; [|discriminate]. intros e env'.
        split; intros H; inversion H; subst; reflexivity. }
    assert (None_ : forall env2 : Env World,
              exists v env3,
                @ret World (option (pystr * pystr)) None env2
                = (Return v, env3))
      by (intros env2; eexists; eexists; reflexivity).
    destruct e1 as [|[|candidate others]|msg| |msg| |]; unfold on_error.
    + destruct (Said MsgPageNotFound (ret None) None_) as (I & R).
      split; [|exact R]. intros e env'. rewrite I. split.
      * intros P. right; right. exists PageError, env1. auto.
      * intros [(_ & H)|[(Ex & H)|(e1 & env1' & H & P)]];
          inversion H; subst; [discriminate Ex|exact P].
    + unfold bind, list_index, raise. cbn [nth_error].
      split; [|discriminate]. intros e env'. split.
      * intros H. inversion H; subst. now left.
      * intros [(-> & H)|[(Ex & H)|(e1 & env1' & H & P)]];
          inversion H; subst; [reflexivity|discriminate Ex|contradiction P].
    + unfold list_index. cbn [nth_error].
      change (bind (ret candidate) ?k env1) with (k candidate env1).
      destruct (Said (MsgDisambiguation candidate)
                  (try_except (second_attempt (candidate :: others) n)
                     (fun _ => ret None))
                  (second_attempt_caught World host _ n)) as (I & R).
      unfold bind at 1. cbn [ret].
      split; [|exact R]. intros e env'. rewrite I. split.
      * intros P. right; right. exists (DisambiguationError (candidate :: others)), env1. auto.
      * intros [(_ & H)|[(Ex & H)|(e1 & env1' & H & P)]];
          inversion H; subst; [discriminate Ex|exact P].
    + cbn [is_Exception].
      destruct (Said (MsgErrorOccurred (IOError msg)) (ret None) None_)
        as (I & R).
      split; [|exact R]. intros e env'. rewrite I. split.
      * intros P. right; right. exists (IOError msg), env1. auto.
      * intros [(_ & H)|[(Ex & H)|(e1 & env1' & H & P)]];
          inversion H; subst; [discriminate Ex|exact (proj2 P)].
    + cbn [is_Exception].
      destruct (Said (MsgErrorOccurred IndexError) (ret None) None_)
        as (I & R).
      split; [|exact R]. intros e env'. rewrite I. split.
      * intros P. right; right. exists IndexError, env1. auto.
      * intros [(_ & H)|[(Ex & H)|(e1 & env1' & H & P)]];
          inversion H; subst; [discriminate Ex|exact (proj2 P)].
    + cbn [is_Exception].
      destruct (Said (MsgErrorOccurred (OtherException msg)) (ret None) None_)
        as (I & R).
      split; [|exact R]. intros e env'. rewrite I. split.
      * intros P. right; right. exists (OtherException msg), env1. auto.
      * intros [(_ & H)|[(Ex & H)|(e1 & env1' & H & P)]];
          inversion H; subst; [discriminate Ex|exact (proj2 P)].
    + cbn [is_Exception]. unfold raise.
      split; [|discriminate]. intros e env'. split.
      * intros H. inversion H; subst. right; left. auto.
      * intros [(E & H)|[(Ex & H)|(e1 & env1' & H & P)]];
          inversion H; subst; [reflexivity|discriminate (proj1 P)].
    + cbn [is_Exception]. unfold raise.
      split; [|discriminate]. intros e env'. split.
      * intros H. inversion H; subst. right; left. auto.
      * intros [(E & H)|[(Ex & H)|(e1 & env1' & H & P)]];
          inversion H; subst; [reflexivity|discriminate (proj1 P)].
Qed.

Lemma get_random_wikipedia_article_raises_iff_witness :
  get_random_wikipedia_article 5 (start two_candidates_no_notice)
  = (Raise (OtherException (py "UnicodeEncodeError")),
     snd (get_random_wikipedia_article 5 (start two_candidates_no_notice))).
Proof.
  apply (proj1 (get_random_wikipedia_article_raises_iff Scripted scripted_host
                  5 (start two_candidates_no_notice))).
  right; right.
  exists (DisambiguationError [py "Mercury (planet)"; py "Mercury (element)"]),
    (snd (first_attempt 5 (start two_candidates_no_notice))).
  split; reflexivity.
Defined.

(** X2. A fetch adds to the transcript the choice of the language first,
    then lookups and messages of its own only: one lookup of a random
    title, at most two page lookups and at most two summary lookups, each
    summary asked for [num_sentences] sentences.  It writes no file. *)
Theorem get_random_wikipedia_article_lookups
    (World : Type) (host : Host World) (num_sentences : Z)
    (env : Env World) r env' :
  get_random_wikipedia_article num_sentences env = (r, env') ->
  exists fetched,
    events_since env env' = EvSetLang (py "en") :: fetched /\
    trace env' = trace env ++ EvSetLang (py "en") :: fetched /\
    forallb (fetch_event num_sentences) fetched = true /\
    count_events is_random_lookup fetched = 1%nat /\
    (count_events is_page_lookup fetched <= 2)%nat /\
    (count_events is_summary_lookup fetched <= 2)%nat /\
    files_written (trace env') = files_written (trace env).
Proof.
  intros H.
  destruct (fetch_transcript _ _ _ _ H) as (_ & fetched & T & E & C).
  destruct (fetch_outcome _ _ _ _ H) as (W & _).
  exists fetched. repeat split; try assumption; try apply C.
  now apply events_since_app.
Qed.

Lemma get_random_wikipedia_article_lookups_witness :
  exists fetched,
    events_since (start two_candidates)
      (snd (get_random_wikipedia_article 5 (start two_candidates)))
    = EvSetLang (py "en") :: fetched /\
    count_events is_page_lookup fetched = 2%nat /\
    count_events is_summary_lookup fetched = 1%nat.
Proof.
  destruct (get_random_wikipedia_article 5 (start two_candidates))
    as [r env'] eqn:R.
  destruct (get_random_wikipedia_article_lookups Scripted scripted_host 5
              (start two_candidates) r env' R) as (fetched & E & _).
  exists fetched. split; [exact E|].
  vm_compute in R. inversion R; subst r env'. clear R.
  vm_compute in E. inversion E; subst fetched. split; reflexivity.
Defined.

(** X3. When the first attempt ends with an [Exception] other than a
    disambiguation error (a missing page, a network failure, ...) and the
    message about it is printed, the fetch makes no further lookup: it
    prints that one message, the one for a missing page or the one that
    shows the exception, and returns [None]. *)
Theorem get_random_wikipedia_article_skips
    (World : Type) (host : Host World) (n : Z) (env env1 : Env World)
    (e : exn) (w : World) :
  first_attempt n env = (Raise e, env1) ->
  (forall options, e <> DisambiguationError options) ->
  is_Exception e = true ->
  let m := match e with
           | PageError => MsgPageNotFound
           | _ => MsgErrorOccurred e
           end in
  console_print m (world env1) = (Returns tt, w) ->
  get_random_wikipedia_article n env =
  (Return None,
   {| world := w; trace := trace env1 ++ [EvPrint m (Returns tt)] |}).
Proof.
  intros H D Ex m P. unfold get_random_wikipedia_article, try_except.
  rewrite H. subst m.
  destruct e; try discriminate Ex; try (now contradiction (D options));
    unfold on_error, bind; cbn [is_Exception]; rewrite print_runs, P;
    reflexivity.
Qed.

Lemma get_random_wikipedia_article_skips_witness :
  get_random_wikipedia_article 4 (start one_page_missing) =
  (Return None,
   {| world := quiet;
      trace := [EvSetLang (py "en"); EvRandom (Returns (py "Lucene"));
                EvPage (py "Lucene") (Raises PageError);
                EvPrint MsgPageNotFound (Returns tt)] |}).
Proof.
  rewrite (get_random_wikipedia_article_skips Scripted scripted_host 4
             (start one_page_missing)
             {| world := quiet;
                trace := [EvSetLang (py "en"); EvRandom (Returns (py "Lucene"));
                          EvPage (py "Lucene") (Raises PageError)] |}
             PageError quiet eq_refl);
    [reflexivity | intros options; discriminate | reflexivity | reflexivity].
Defined.

(** ** More on the names *)

Lemma base_name_of_untouched (topic : pystr) :
  (forall c, In c topic ->
     c <> chr " " /\ c <> chr "(" /\ c <> chr ")" /\ c <> chr "/") ->
  base_name_of topic = firstn 30 topic.
Proof.
  intros H. rewrite base_name_of_sanitize. unfold sanitizeBaseName. f_equal.
  induction topic as [|c topic IH]; [reflexivity|].
  destruct (H c (or_introl eq_refl)) as (H1 & H2 & H3 & H4).
  apply N.eqb_neq in H1, H2, H3, H4.
  cbn [List.map]. rewrite H1. cbn [filter]. rewrite H2, H3.
  cbn [negb orb List.map]. rewrite H4. f_equal.
  apply IH. intros d Hd. apply H. now right.
Qed.

Lemma zero_pad_length (width : nat) (s : pystr) :
  length (zero_pad width s) = Nat.max width (length s).
Proof.
  unfold zero_pad. rewrite length_app, repeat_length.
  unfold pystr, codepoint in *. lia.
Qed.

Lemma zero_pad_digits (width : nat) (n : N) :
  forallb is_digit (zero_pad width (str_of_N n)) = true.
Proof.
  unfold zero_pad, str_of_N. rewrite forallb_app, uint_chars_digits, andb_true_r.
  induction (width - length (uint_chars (N.to_uint n)))%nat; simpl; auto.
Qed.

Lemma str_of_N_short (k : nat) :
  (k < 1000)%nat -> (length (str_of_N (N.of_nat k)) <= 3)%nat.
Proof.
  intros H.
  assert (All : forallb (fun k => length (str_of_N (N.of_nat k)) <=? 3)%nat
                  (seq 0 1000) = true) by (vm_compute; reflexivity).
  rewrite forallb_forall in All. apply Nat.leb_le, All, in_seq. lia.
Qed.

Lemma os_path_join_shape (a b : pystr) :
  no_sep b = true ->
  os_path_join a b =
  a ++ (if match a with [] => true | _ :: _ => endswith_sep a end
        then [] else [47%N]) ++ b.
Proof.
  intros H. unfold os_path_join.
  assert (Hs : startswith_sep b = false).
  { destruct b as [|c b]; [reflexivity|]. simpl in *.
    apply andb_true_iff in H. now apply negb_true_iff. }
  rewrite Hs. destruct a as [|x a]; [reflexivity|].
  destruct (endswith_sep (x :: a)); reflexivity.
Qed.

(** X4. Sanitising a title twice gives what sanitising it once gives. *)
Theorem base_name_of_idempotent (topic : pystr) :
  base_name_of (base_name_of topic) = base_name_of topic.
Proof.
  rewrite base_name_of_untouched by apply base_name_of_clean.
  apply firstn_all2, base_name_of_length.
Qed.

(** X5. Only spaces, parentheses and slashes are rewritten: a title that
    holds none of them is only cut to its first 30 characters, whatever
    other characters it holds (colons, backslashes, quotes, ...). *)
Theorem base_name_of_keeps_other_characters (topic : pystr) :
  (forall c, In c topic ->
     c <> chr " " /\ c <> chr "(" /\ c <> chr ")" /\ c <> chr "/") ->
  base_name_of topic = firstn 30 topic /\
  (length (base_name_of topic) = Nat.min 30 (length topic))%nat.
Proof.
  intros H. rewrite base_name_of_untouched by exact H.
  split; [reflexivity|apply length_firstn].
Qed.

Lemma base_name_of_keeps_other_characters_witness :
  base_name_of (py "C:\temp*?|<>") = py "C:\temp*?|<>".
Proof.
  apply (base_name_of_keeps_other_characters (py "C:\temp*?|<>")).
  intros c H. simpl in H.
  repeat (destruct H as [<-|H]; [repeat split; discriminate|]).
  contradiction.
Defined.

(** X6. The base name never holds a space, a parenthesis or a slash, and
    never more than 30 characters; its characters are characters of the
    title or underscores. *)
Theorem base_name_of_characters (topic : pystr) :
  (length (base_name_of topic) <= 30)%nat /\
  forall c, In c (base_name_of topic) ->
    c <> chr " " /\ c <> chr "(" /\ c <> chr ")" /\ c <> chr "/" /\
    (In c topic \/ c = chr "_").
Proof.
  split; [apply base_name_of_length|].
  intros c H. pose proof (base_name_of_clean topic c H) as (H1 & H2 & H3 & H4).
  repeat split; try assumption.
  rewrite base_name_of_sanitize in H. unfold sanitizeBaseName in H.
  apply in_firstn, in_map_iff in H. destruct H as (d & Hd & H).
  apply filter_In in H. destruct H as (H & _).
  apply in_map_iff in H. destruct H as (e & He & He').
  destruct (N.eqb_spec d (chr "/")); [now right|]. subst c.
  destruct (N.eqb_spec e (chr " ")); [now right|]. subst d. now left.
Qed.

(** X7. The file is written directly in the output folder: its path is
    the folder, a separator unless the folder is empty or ends with one,
    and a name without any separator, whatever the title of the article.
    The base name of the path is that name. *)
Theorem file_name_of_inside_folder (output_folder : pystr) (i : Z)
    (topic unique_id : pystr) :
  0 <= i ->
  forallb is_digit unique_id = true ->
  let name := file_base i (base_name_of topic) unique_id in
  no_sep name = true /\
  file_name_of output_folder i topic unique_id =
  output_folder
    ++ (if match output_folder with
           | [] => true
           | _ :: _ => endswith_sep output_folder
           end
        then [] else py "/")
    ++ name /\
  path_basename (file_name_of output_folder i topic unique_id) = name.
Proof.
  intros P D name.
  assert (S : no_sep name = true).
  { subst name. rewrite <- (Z2Nat.id i P). now apply file_base_no_sep. }
  split; [exact S|]. unfold file_name_of. fold name. split.
  - now apply os_path_join_shape.
  - now apply path_basename_join.
Qed.

Lemma file_name_of_inside_folder_witness :
  file_name_of (py "out/") 12 (py "../../etc/passwd") (py "0042")
  = py "out/012_.._.._etc_passwd_0042.txt".
Proof.
  destruct (file_name_of_inside_folder (py "out/") 12 (py "../../etc/passwd")
              (py "0042") ltac:(lia) eq_refl) as (_ & E & _).
  rewrite E. reflexivity.
Defined.

(** X8. The index is read back from the name of the file, whatever the
    folder, the title and the suffix: it is never cut, also beyond 999. *)
Theorem success_index_round_trip (output_folder : pystr) (i : Z)
    (topic unique_id : pystr) :
  0 <= i ->
  forallb is_digit unique_id = true ->
  success_index (file_name_of output_folder i topic unique_id) = i.
Proof.
  intros P D. rewrite <- (Z2Nat.id i P) at 2. rewrite <- (Z2Nat.id i P) at 1.
  now apply success_index_file_name.
Qed.

Lemma success_index_round_trip_witness :
  success_index (file_name_of (py "data") 12345 (py "2 (number)") (py "9999"))
  = 12345.
Proof.
  apply (success_index_round_trip (py "data") 12345 (py "2 (number)")
           (py "9999")); [lia|reflexivity].
Defined.

(** X9. The index printed in a name is made of decimal digits, at least
    three of them, and exactly three as long as it is below 1000. *)
Theorem format_0d_width (i : Z) :
  0 <= i ->
  forallb is_digit (format_0d 3 i) = true /\
  (3 <= length (format_0d 3 i))%nat /\
  (i < 1000 -> length (format_0d 3 i) = 3%nat).
Proof.
  intros P. rewrite format_0d_nonneg by exact P.
  split; [apply zero_pad_digits|]. rewrite zero_pad_length.
  split; [lia|]. intros H.
  pose proof (str_of_N_short (Z.to_nat i) ltac:(lia)) as S.
  replace (N.of_nat (Z.to_nat i)) with (Z.to_N i) in S by lia. lia.
Qed.

Lemma format_0d_width_witness :
  length (format_0d 3 999) = 3%nat /\ length (format_0d 3 0) = 3%nat.
Proof.
  split.
  - apply (format_0d_width 999); lia.
  - apply (format_0d_width 0); lia.
Defined.

(** ** More on the driver *)

(** X10. As long as no progress message has failed to print, the files
    written by a run so far are as many as the count of files and have
    pairwise distinct names: no file of the run is overwritten later in
    the same run, whatever suffixes are drawn and whatever titles come
    back. *)
Theorem loop_top_names_distinct
    (World : Type) (host : Host World) (output_folder : pystr) (num_files : Z)
    (env0 : Env World) st env :
  loop_top output_folder num_files env0 st env ->
  count_events is_failed_progress (events_since env0 env) = O ->
  exists created,
    files_written (trace env) = files_written (trace env0) ++ created /\
    Z.of_nat (length created) = files_created st /\
    NoDup (List.map fst created).
Proof.
  intros T Fp.
  destruct (loop_top_invariant _ _ _ _ _ T)
    as (E & _ & _ & _ & _ & _ & _ & Len & Names).
  exists (files_written (events_since env0 env)).
  split; [rewrite E at 1; apply files_written_app|].
  split; [lia|].
  apply indices_names_NoDup
    with (n := length (files_written (events_since env0 env))).
  apply (named_indices _ _ _ _ (Names Fp)).
Qed.

(** X11. At the top of every iteration the count of files is between zero
    and the attempts, and the attempts are the number of fetches made since
    the loop was entered: one draw of the number of sentences and one
    lookup of a random title for each. *)
Theorem loop_top_attempts
    (World : Type) (host : Host World) (output_folder : pystr) (num_files : Z)
    (env0 : Env World) st env :
  loop_top output_folder num_files env0 st env ->
  0 <= files_created st <= attempts st /\
  attempts st = Z.of_nat (count_events is_randint (events_since env0 env)) /\
  attempts st
  = Z.of_nat (count_events is_random_lookup (events_since env0 env)).
Proof.
  intros T.
  destruct (loop_top_invariant _ _ _ _ _ T) as (_ & B & R & L & _).
  auto.
Qed.

(** X12. At the top of every iteration the number of progress messages
    printed since the loop was entered is the count of files divided by
    ten: one message for every tenth file, none for a failed write. *)
Theorem loop_top_progress
    (World : Type) (host : Host World) (output_folder : pystr) (num_files : Z)
    (env0 : Env World) st env :
  loop_top output_folder num_files env0 st env ->
  Z.of_nat (count_events is_progress (events_since env0 env))
  = files_created st / 10.
Proof.
  intros T.
  destruct (loop_top_invariant _ _ _ _ _ T) as (_ & _ & _ & _ & G & _).
  exact G.
Qed.

(** X13. Every summary lookup made by the loop asks for at least 4 and at
    most 7 sentences. *)
Theorem loop_top_sentences
    (World : Type) (host : Host World) (output_folder : pystr) (num_files : Z)
    (env0 : Env World) st env :
  loop_top output_folder num_files env0 st env ->
  forallb asks_4_to_7 (events_since env0 env) = true.
Proof.
  intros T.
  destruct (loop_top_invariant _ _ _ _ _ T) as (_ & _ & _ & _ & _ & _ & S & _).
  exact S.
Qed.

(** The loop of two files in the world whose first write fails, used to
    illustrate the four statements above. *)
Lemma one_write_fails_top :
  exists env',
    while_loop 3 (py "data") 2 {| files_created := 0; attempts := 0 |}
      (start one_write_fails)
    = (Return {| files_created := 2; attempts := 3 |}, env') /\
    loop_top (py "data") 2 (start one_write_fails)
      {| files_created := 2; attempts := 3 |} env' /\
    count_events is_failed_progress
      (events_since (start one_write_fails) env') = O.
Proof.
  destruct (while_loop 3 (py "data") 2 {| files_created := 0; attempts := 0 |}
              (start one_write_fails)) as [r env'] eqn:R.
  assert (r = Return {| files_created := 2; attempts := 3 |}) as ->
    by (vm_compute in R; congruence).
  exists env'. split; [reflexivity|]. split.
  - apply (while_loop_top (py "data") 2 (start one_write_fails) 3%nat _ _ _ _
             (top_first _ _ _) R).
  - vm_compute in R. inversion R; subst env'. reflexivity.
Defined.

Lemma loop_top_names_distinct_witness :
  exists env' created,
    loop_top (py "data") 2 (start one_write_fails)
      {| files_created := 2; attempts := 3 |} env' /\
    files_written (trace env') = created /\
    NoDup (List.map fst created).
Proof.
  destruct one_write_fails_top as (env' & _ & T & Fp).
  destruct (loop_top_names_distinct Scripted scripted_host (py "data") 2
              (start one_write_fails) _ env' T Fp) as (created & W & _ & N).
  exists env', created. auto.
Defined.

Lemma loop_top_attempts_witness :
  exists env',
    loop_top (py "data") 2 (start one_write_fails)
      {| files_created := 2; attempts := 3 |} env' /\
    3 = Z.of_nat (count_events is_random_lookup
                    (events_since (start one_write_fails) env')).
Proof.
  destruct one_write_fails_top as (env' & _ & T & _).
  exists env'. split; [exact T|].
  apply (loop_top_attempts Scripted scripted_host (py "data") 2
           (start one_write_fails) _ env' T).
Defined.

Lemma loop_top_progress_witness :
  exists env',
    loop_top (py "data") 10 (start quiet)
      {| files_created := 10; attempts := 10 |} env' /\
    Z.of_nat (count_events is_progress (events_since (start quiet) env')) = 1.
Proof.
  destruct (while_loop 10 (py "data") 10 {| files_created := 0; attempts := 0 |}
              (start quiet)) as [r env'] eqn:R.
  assert (r = Return {| files_created := 10; attempts := 10 |}) as ->
    by (vm_compute in R; congruence).
  pose proof (proj1 (while_loop_top (py "data") 10 (start quiet) 10%nat _ _ _ _
                       (top_first _ _ _) R)) as T.
  exists env'. split; [exact T|].
  apply (loop_top_progress Scripted scripted_host (py "data") 10
           (start quiet) _ env' T).
Defined.

Lemma loop_top_sentences_witness :
  exists env',
    loop_top (py "data") 2 (start one_write_fails)
      {| files_created := 2; attempts := 3 |} env' /\
    forallb asks_4_to_7 (events_since (start one_write_fails) env') = true.
Proof.
  destruct one_write_fails_top as (env' & _ & T & _).
  exists env'. split; [exact T|].
  apply (loop_top_sentences Scripted scripted_host (py "data") 2
           (start one_write_fails) _ env' T).
Defined.

(** X14. In any world, when the run returns it has written
    [max 0 num_files] files and one more for every progress message whose
    [print] raised an [IOError]; they are the files that the file system
    has taken.  When no progress message failed in this way, they are
    exactly [num_files] files, the [i]-th under index [i] of the naming
    scheme, all names distinct.  The last event is the final report, which
    shows [max 0 num_files] files and a number of attempts that is not
    smaller. *)
Theorem create_wiki_files_postcondition
    (World : Type) (host : Host World) (fuel : nat) (output_folder : pystr)
    (num_files : Z) (env env' : Env World) :
  create_wiki_files fuel output_folder num_files env = (Return tt, env') ->
  exists created attempts tr,
    files_written (trace env') = files_written (trace env) ++ created /\
    Z.of_nat (length created)
    = Z.max 0 num_files
      + Z.of_nat (count_events is_failed_progress (events_since env env')) /\
    (forall stored : World -> list (pystr * pystr),
       store_model stored ->
       stored (world env') = stored (world env) ++ created) /\
    (count_events is_failed_progress (events_since env env') = O ->
     produces output_folder (Z.to_nat num_files) (trace env) (trace env')) /\
    trace env' =
    tr ++ [EvPrint (MsgGenerationCompleted (Z.max 0 num_files) attempts)
             (Returns tt)] /\
    Z.max 0 num_files <= attempts.
Proof.
  intros R.
  destruct (create_wiki_files_returns World host _ _ _ _ _ R)
    as (created & attempts & tr & W & Len & Names & T & A & St).
  exists created, attempts, tr.
  split; [exact W|]. split; [exact Len|]. split; [exact St|].
  split; [|split; assumption].
  intros Fp. rewrite Fp in Len.
  replace (Z.to_nat num_files) with (length created) by lia.
  apply named_produces; auto.
Qed.

Lemma create_wiki_files_postcondition_witness :
  exists env',
    create_wiki_files 3 (py "data") 2 (start one_write_fails)
    = (Return tt, env') /\
    produces (py "data") 2 [] (trace env') /\
    disk (world env') = files_written (trace env').
Proof.
  destruct (create_wiki_files 3 (py "data") 2 (start one_write_fails))
    as [r env'] eqn:R.
  assert (r = Return tt) as -> by (vm_compute in R; congruence).
  exists env'. split; [reflexivity|].
  destruct (create_wiki_files_postcondition Scripted scripted_host 3 (py "data")
              2 (start one_write_fails) env' R)
    as (created & attempts & tr & W & _ & St & P & _).
  split.
  - apply P. vm_compute in R. inversion R; subst env'. reflexivity.
  - rewrite W. exact (St disk scripted_store).
Defined.

(** X15. The final report is printed exactly once when the run returns,
    and not at all when the run ends with an exception (or has not ended):
    no iteration prints it. *)
Theorem create_wiki_files_final_report
    (World : Type) (host : Host World) (fuel : nat) (output_folder : pystr)
    (num_files : Z) (env : Env World) r env' :
  create_wiki_files fuel output_folder num_files env = (r, env') ->
  count_events is_final_report (events_since env env')
  = match r with Return _ => 1%nat | _ => O end.
Proof.
  unfold create_wiki_files. unfold bind at 1.
  destruct (prepare output_folder num_files env) as [r0 env0] eqn:Prep.
  destruct (prepare_transcript _ _ _ _ _ Prep)
    as (F0 & _ & pre & E0 & C0).
  destruct r0 as [[]|e|]; [| |now contradiction F0].
  - unfold bind.
    destruct (while_loop fuel output_folder num_files
                {| files_created := 0; attempts := 0 |} env0)
      as [r1 env1] eqn:Loop.
    destruct (while_loop_no_final_report World host _ _ _ _ _ _ _ Loop)
      as (new & E1 & C1).
    destruct r1 as [st'|e|].
    + rewrite print_runs.
      destruct (console_print
                  (MsgGenerationCompleted (files_created st') (attempts st'))
                  (world env1)) as [[[]|e] w]; cbn [fst snd];
        intros H; inversion H; subst; clear H.
      * rewrite (events_since_app env _
                   (pre ++ new
                    ++ [EvPrint (MsgGenerationCompleted
                                   (files_created st') (attempts st'))
                          (Returns tt)])).
        -- rewrite !count_events_app, C0, C1. reflexivity.
        -- cbn [trace]. rewrite E1, E0, <- !app_assoc. reflexivity.
      * rewrite (events_since_app env _
                   (pre ++ new
                    ++ [EvPrint (MsgGenerationCompleted
                                   (files_created st') (attempts st'))
                          (Raises e)])).
        -- rewrite !count_events_app, C0, C1. reflexivity.
        -- cbn [trace]. rewrite E1, E0, <- !app_assoc. reflexivity.
    + intros H; inversion H; subst; clear H.
      rewrite (events_since_app env env' (pre ++ new)).
      * rewrite count_events_app, C0, C1. reflexivity.
      * rewrite E1, E0, <- app_assoc. reflexivity.
    + intros H; inversion H; subst; clear H.
      rewrite (events_since_app env env' (pre ++ new)).
      * rewrite count_events_app, C0, C1. reflexivity.
      * rewrite E1, E0, <- app_assoc. reflexivity.
  - intros H. inversion H; subst; clear H.
    now rewrite (events_since_app env env' pre E0).
Qed.

Lemma create_wiki_files_final_report_witness :
  fst (create_wiki_files 3 (py "data") 2 (start no_candidates))
  = Raise IndexError /\
  count_events is_final_report
    (events_since (start no_candidates)
       (snd (create_wiki_files 3 (py "data") 2 (start no_candidates)))) = O.
Proof.
  split; [reflexivity|].
  destruct (create_wiki_files 3 (py "data") 2 (start no_candidates))
    as [r env'] eqn:R.
  assert (r = Raise IndexError) as -> by (vm_compute in R; congruence).
  apply (create_wiki_files_final_report Scripted scripted_host 3 (py "data") 2
           (start no_candidates) _ env' R).
Defined.

(** X16. Only an [IOError] is caught around the write: when the write
    raises any other exception, the iteration raises it, no message is
    printed, and the loop ends with that exception. *)
Theorem loop_body_write_exception
    (World : Type) (host : Host World) (output_folder : pystr) (num_files : Z)
    (fuel : nat) (st : GenerationState) (env : Env World)
    n env1 topic content env2 unique_id env3 e w :
  random_randint 4 7 env = (Return n, env1) ->
  get_random_wikipedia_article n env1 = (Return (Some (topic, content)), env2) ->
  random_choices (py "0123456789") 4 env2 = (Return unique_id, env3) ->
  let file_name :=
    file_name_of output_folder (files_created st + 1) topic unique_id in
  fs_write file_name content (world env3) = (Raises e, w) ->
  (forall msg, e <> IOError msg) ->
  files_created st < num_files ->
  let env' :=
    {| world := w;
       trace := trace env3 ++ [EvWrite file_name content (Raises e)] |} in
  loop_body output_folder num_files st env = (Raise e, env') /\
  while_loop (S fuel) output_folder num_files st env = (Raise e, env').
Proof.
  intros H1 H2 H3 file_name E D C env'.
  assert (B : loop_body output_folder num_files st env = (Raise e, env')).
  { rewrite (loop_body_some output_folder num_files st _ _ _ _ _ _ _ _ H1 H2 H3).
    cbv zeta. fold file_name. unfold_block. rewrite E. cbn [fst snd].
    destruct e; try reflexivity. now contradiction (D msg). }
  split; [exact B|].
  rewrite while_loop_enter by exact C. unfold bind. now rewrite B.
Qed.

Lemma loop_body_write_exception_witness :
  fst (while_loop 5 (py "data") 2 {| files_created := 0; attempts := 0 |}
         (start write_rejected))
  = Raise (OtherException (py "surrogates not allowed")).
Proof.
  pose (env1 := snd (random_randint 4 7 (start write_rejected))).
  pose (env2 := snd (get_random_wikipedia_article 4 env1)).
  pose (env3 := snd (random_choices (py "0123456789") 4 env2)).
  pose (file_name := file_name_of (py "data") 1 (py "Lucene") (py "0000")).
  pose (w := snd (fs_write file_name (py "About Lucene") (world env3))).
  assert (H1 : random_randint 4 7 (start write_rejected) = (Return 4, env1))
    by (vm_compute; reflexivity).
  assert (H2 : get_random_wikipedia_article 4 env1
               = (Return (Some (py "Lucene", py "About Lucene")), env2))
    by (vm_compute; reflexivity).
  assert (H3 : random_choices (py "0123456789") 4 env2
               = (Return (py "0000"), env3))
    by (vm_compute; reflexivity).
  assert (H4 : fs_write file_name (py "About Lucene") (world env3)
               = (Raises (OtherException (py "surrogates not allowed")), w))
    by (vm_compute; reflexivity).
  destruct (loop_body_write_exception Scripted scripted_host (py "data") 2 4
              {| files_created := 0; attempts := 0 |} (start write_rejected)
              4 env1 (py "Lucene") (py "About Lucene") env2 (py "0000") env3
              _ w H1 H2 H3 H4) as (_ & L);
    [intros msg; discriminate | simpl; lia |].
  rewrite L. reflexivity.
Defined.

Lemma Forall2_Forall_in {A B} (R : A -> B -> Prop) (l : list A) (l' : list B) :
  Forall2 R l l' -> Forall (fun y => exists x, In x l /\ R x y) l'.
Proof.
  induction 1 as [|x y l l' H _ IH]; constructor.
  - exists x. split; [now left|exact H].
  - apply Forall_impl with (2 := IH). intros b (a & I & Rab).
    exists a. split; [now right|exact Rab].
Qed.

(** X17. The entry point of the script asks for 100 files in folder
    [data]: in any world, when it returns and no progress message failed
    to print with an [IOError], it has written exactly 100 files, those
    that the file system has taken, each named [data/], three decimal
    digits, an underscore and the rest, with the indices 1 to 100 in
    order. *)
Theorem main_postcondition
    (World : Type) (host : Host World) (fuel : nat) (env env' : Env World) :
  main fuel env = (Return tt, env') ->
  count_events is_failed_progress (events_since env env') = O ->
  exists created,
    files_written (trace env') = files_written (trace env) ++ created /\
    (forall stored : World -> list (pystr * pystr),
       store_model stored ->
       stored (world env') = stored (world env) ++ created) /\
    length created = 100%nat /\
    success_indices created = one_to 100 /\
    Forall
      (fun f => exists index rest,
         fst f = py "data/" ++ index ++ py "_" ++ rest /\
         length index = 3%nat /\
         forallb is_digit index = true)
      created.
Proof.
  unfold main. intros R Fp.
  destruct (create_wiki_files_returns World host _ _ _ _ _ R)
    as (created & attempts & tr & W & Len & Names & _ & _ & St).
  rewrite Fp in Len. specialize (Names Fp).
  assert (Len' : length created = 100%nat) by lia.
  exists created.
  split; [exact W|]. split; [exact St|]. split; [exact Len'|]. split.
  - rewrite <- Len'. apply (named_indices _ _ _ _ Names).
  - apply Forall_impl with (2 := Forall2_Forall_in _ _ _ Names).
    intros f (i & I & topic & u & _ & D & E).
    apply in_seq in I. rewrite Len' in I.
    exists (format_0d 3 (Z.of_nat i)), (base_name_of topic ++ py "_" ++ u ++ py ".txt").
    split; [|split].
    + transitivity (file_name_of (py "data") (Z.of_nat i) topic u);
        [exact E|].
      unfold file_name_of.
      rewrite os_path_join_shape by now apply file_base_no_sep.
      reflexivity.
    + rewrite format_0d_nonneg, zero_pad_length by lia.
      pose proof (str_of_N_short i ltac:(lia)) as S.
      replace (Z.to_N (Z.of_nat i)) with (N.of_nat i) by lia. lia.
    + rewrite format_0d_nonneg by lia. apply zero_pad_digits.
Qed.

Lemma main_postcondition_witness :
  exists env' created,
    @main _ reliable_host 100 (start []) = (Return tt, env') /\
    files_written (trace env') = created /\
    world env' = created /\
    length created = 100%nat.
Proof.
  pose (env' := snd (@main _ reliable_host 100 (start []))).
  assert (R : @main _ reliable_host 100 (start []) = (Return tt, env'))
    by (vm_compute; reflexivity).
  assert (Fp : count_events is_failed_progress (events_since (start []) env')
               = O)
    by (vm_compute; reflexivity).
  destruct (main_postcondition _ reliable_host 100 (start []) env' R Fp)
    as (created & W & St & L & _).
  exists env', created. split; [exact R|]. split; [exact W|].
  split; [exact (St (fun w => w) (constant_store _ _ _))|exact L].
Defined.

(** X18. In a run, when the fetch of an iteration gives an article, the
    file is written under
    [<index zero-padded to 3 digits>_<baseName>_<suffix>.txt] in the output
    folder, where the index is the count of files plus one, [baseName] is
    the title with its spaces replaced by underscores, its parentheses
    deleted, its slashes replaced by underscores, cut to at most 30
    characters, and the suffix is made of four decimal digits.  The index
    is read back from the name, and it is one more than the number of
    files written in the run less the number of progress messages that
    failed to print with an [IOError]. *)
Theorem loop_body_file_name
    (World : Type) (host : Host World) (output_folder : pystr) (num_files : Z)
    (env0 : Env World) (st : GenerationState) (env : Env World)
    n env1 topic content env2 :
  loop_top output_folder num_files env0 st env ->
  random_randint 4 7 env = (Return n, env1) ->
  get_random_wikipedia_article n env1 = (Return (Some (topic, content)), env2) ->
  exists suffix env3 file_name r env' answered rest,
    random_choices (py "0123456789") 4 env2 = (Return suffix, env3) /\
    length suffix = 4%nat /\
    forallb is_digit suffix = true /\
    file_name = os_path_join output_folder
                  (scheme (Z.to_nat (files_created st + 1))
                     (sanitizeBaseName topic) suffix) /\
    (length (sanitizeBaseName topic) <= 30)%nat /\
    base_name_of topic = sanitizeBaseName topic /\
    success_index file_name = files_created st + 1 /\
    files_created st + 1
    = Z.of_nat (length (files_written (events_since env0 env))) + 1
      - Z.of_nat (count_events is_failed_progress (events_since env0 env)) /\
    loop_body output_folder num_files st env = (r, env') /\
    trace env' = trace env3 ++ EvWrite file_name content answered :: rest.
Proof.
  intros T H1 H2.
  destruct (loop_top_invariant _ _ _ _ _ T)
    as (_ & Bd & _ & _ & _ & _ & _ & Len & _).
  destruct (random_choices_runs 4 env2) as (u & env3 & H3 & Lu & Du & _ & T3).
  pose proof (loop_body_some output_folder num_files st _ _ _ _ _ _ _ _ H1 H2 H3)
    as B. cbv zeta in B.
  assert (I : files_created st + 1 = Z.of_nat (Z.to_nat (files_created st + 1)))
    by lia.
  set (file_name := file_name_of output_folder (files_created st + 1) topic u)
    in *.
  assert (Sch : file_name
                = os_path_join output_folder
                    (scheme (Z.to_nat (files_created st + 1))
                       (sanitizeBaseName topic) u)).
  { unfold file_name. rewrite I at 1. apply file_name_of_scheme. }
  assert (Idx : success_index file_name = files_created st + 1).
  { unfold file_name. rewrite I. now apply success_index_file_name. }
  assert (Ord : files_created st + 1
                = Z.of_nat (length (files_written (events_since env0 env))) + 1
                  - Z.of_nat (count_events is_failed_progress
                                (events_since env0 env))) by lia.
  exists u, env3, file_name.
  unfold try_except, bind, write_file, print, call, ret, raise in B.
  destruct (fs_write file_name content (world env3)) as [[[]|e] w];
    cbn [world trace fst snd] in B.
  - destruct ((files_created st + 1) mod 10 =? 0);
      cbn [world trace fst snd] in B.
    + destruct (console_print
                  (MsgFileCreated (files_created st + 1) num_files topic) w)
        as [[[]|e] w']; cbn [world trace fst snd] in B.
      * eexists; eexists; eexists; eexists.
        repeat (split; [eassumption || exact B
                        || (rewrite <- base_name_of_sanitize;
                            apply base_name_of_length)
                        || apply base_name_of_sanitize|]).
        cbn [trace]. rewrite <- ?app_assoc. reflexivity.
      * destruct e; cbn [world trace fst snd] in B;
          try (destruct (console_print _ w') as [[[]|e'] w'']);
          cbn [world trace fst snd] in B;
          (eexists; eexists; eexists; eexists;
           repeat (split; [eassumption || exact B
                           || (rewrite <- base_name_of_sanitize;
                               apply base_name_of_length)
                           || apply base_name_of_sanitize|]);
           cbn [trace]; rewrite <- ?app_assoc; reflexivity).
    + eexists; eexists; eexists; eexists.
      repeat (split; [eassumption || exact B
                      || (rewrite <- base_name_of_sanitize;
                          apply base_name_of_length)
                      || apply base_name_of_sanitize|]).
      cbn [trace]. rewrite <- ?app_assoc. reflexivity.
  - destruct e; cbn [world trace fst snd] in B;
      try (destruct (console_print _ w) as [[[]|e'] w']);
      cbn [world trace fst snd] in B;
      (eexists; eexists; eexists; eexists;
       repeat (split; [eassumption || exact B
                       || (rewrite <- base_name_of_sanitize;
                           apply base_name_of_length)
                       || apply base_name_of_sanitize|]);
       cbn [trace]; rewrite <- ?app_assoc; reflexivity).
Qed.

Lemma loop_body_file_name_witness :
  exists file_name env',
    file_name = py "data/001_Foo_Bar_Baz_Very_Long_Title_Ex_3141.txt" /\
    snd (loop_body (py "data") 1 {| files_created := 0; attempts := 0 |}
           (start long_title)) = env' /\
    files_written (trace env') =
    [(file_name,
      py "About Foo (Bar)/Baz Very Long Title Exceeding Thirty Chars")].
Proof.
  pose (env1 := snd (random_randint 4 7 (start long_title))).
  pose (env2 := snd (get_random_wikipedia_article 6 env1)).
  assert (H1 : random_randint 4 7 (start long_title) = (Return 6, env1))
    by (vm_compute; reflexivity).
  assert (H2 : get_random_wikipedia_article 6 env1
               = (Return
                    (Some (py "Foo (Bar)/Baz Very Long Title Exceeding Thirty Chars",
                           py "About Foo (Bar)/Baz Very Long Title Exceeding Thirty Chars")),
                  env2))
    by (vm_compute; reflexivity).
  destruct (loop_body_file_name Scripted scripted_host (py "data") 1
              (start long_title) {| files_created := 0; attempts := 0 |}
              (start long_title) 6 env1 _ _ env2 (top_first _ _ _) H1 H2)
    as (suffix & env3 & file_name & r & env' & answered & rest
        & C & _ & _ & N & _ & _ & _ & _ & B & T).
  exists file_name, env'.
  vm_compute in C. inversion C; subst suffix env3. clear C.
  vm_compute in N.
  rewrite B. cbn [snd].
  vm_compute in B. inversion B; subst r env'. clear B.
  split; [exact N|]. split; [reflexivity|].
  rewrite N. reflexivity.
Defined.
